(** * furios-terminal: the PTY session controller of [terminal.c]

    A shallow embedding of [src/terminal.c]: the console set-up of
    [ul_terminal_prepare_current_terminal], the start of [tty_thread]
    (geometry, [forkpty]) and one iteration of its multiplex loop
    (interrupt delivery, echo suppression on a read, command send).

    Conventions.
    - C [char] arrays are [list byte]; a store outside the array is
      undefined behaviour and makes the modelled function return [None].
    - C strings are read up to the first NUL ([strlen], [strcmp]).
    - Heap blocks ([entered_command], [cut_terminal]) are modelled by the
      bytes [memcpy] put in them; the terminating NUL the code stores one
      past them is implicit (the end of the list).
    - System calls are events of a trace; what the kernel answers is an
      explicit input of each step. *)

From Stdlib Require Import ZArith Lia DecimalString DecimalZ.
From Stdlib.Strings Require Import Byte.
From stdpp Require Import base list strings.

Open Scope Z_scope.

(** ** C strings over byte arrays *)
Module CStr.

Definition NUL : byte := x00.

#[export] Instance byte_eq_dec : EqDecision byte := Byte.byte_eq_dec.

Definition is_nul (b : byte) : bool := Byte.eqb b NUL.

(** The characters of the C string stored at the start of [l]: everything
    before the first NUL. A list without NUL stands for a block whose
    terminator sits right behind it. *)
Fixpoint cstring (l : list byte) : list byte :=
  match l with
  | [] => []
  | b :: l' => if is_nul b then [] else b :: cstring l'
  end.

(** [strlen(3)]. *)
Definition strlen (l : list byte) : nat := length (cstring l).

Definition uchar (b : byte) : Z := Z.of_N (Byte.to_N b).

(** [strcmp(3)]: walk both strings until they differ or one ends; the
    result is the difference of the first differing characters, taken as
    unsigned char. *)
Fixpoint strcmp (a b : list byte) : Z :=
  match a, b with
  | [], [] => 0
  | [], y :: _ => 0 - uchar y
  | x :: _, [] => uchar x - 0
  | x :: a', y :: b' =>
      if Byte.eqb x y
      then (if is_nul x then 0 else strcmp a' b')
      else uchar x - uchar y
  end.

(** [strlen] on an array: reading past the array is undefined, so the
    terminator must lie inside it. *)
Definition strlen_arr (buf : list byte) : option nat :=
  if decide (strlen buf < length buf)%nat then Some (strlen buf) else None.

(** [buf[i] = c] on an array: defined only inside the array. *)
Definition store (buf : list byte) (i : Z) (c : byte) : option (list byte) :=
  if (0 <=? i) && (i <? Z.of_nat (length buf))
  then Some (<[Z.to_nat i := c]> buf)
  else None.

(** [memcpy(buf, src, n)] into the start of [buf]; [src] is a snapshot of
    the source bytes, [n] of them are copied. *)
Definition memcpy_to_start (buf src : list byte) (n : nat) : list byte :=
  take n src ++ drop n buf.

(** [memset]-style clearing of a whole array. *)
Definition zero_fill (buf : list byte) : list byte :=
  replicate (length buf) NUL.

Definition of_string (s : string) : list byte := String.list_byte_of_string s.

End CStr.

(** ** Integer conversions *)
Module CInt.

(** Conversion of a mathematical integer to a 32-bit [int]. *)
Definition to_int (z : Z) : Z :=
  let m := z mod 2 ^ 32 in
  if m <? 2 ^ 31 then m else m - 2 ^ 32.

(** Conversion to [size_t] (64 bit). *)
Definition to_size_t (z : Z) : Z := z mod 2 ^ 64.

(** Conversion to [unsigned short]. *)
Definition to_ushort (z : Z) : Z := z mod 2 ^ 16.

(** [int] division: truncation toward zero. *)
Definition idiv (a b : Z) : Z := Z.quot a b.

End CInt.

(** ** The multiplex loop of [tty_thread] *)
Module Tty.
Import CStr CInt.

Definition SIGINT : Z := 2.
Definition POLLIN : Z := 1.
Definition POLLOUT : Z := 4.

(** The variables the loop works on: the statics of [terminal.c], the
    globals shared with the on-screen keyboard
    ([lv_keyboard_global.h]) and the locals of [tty_thread] that live
    across iterations. *)
Record state : Type := mkState {
  pid : Z;
  tty_fd : Z;
  terminal_buffer : list byte;
  term_needs_update : bool;
  sig_int_sent : bool;
  command_ready_to_send : bool;
  command_buffer : list byte;
  command_buffer_pos : Z;
  command_buffer_length : Z;
  entered_command : option (list byte);
  cut_terminal : option (list byte);
  tmp_length : Z
}.

(** [sizeof(terminal_buffer)]. *)
Definition BUFFER_SIZE (s : state) : nat := length (terminal_buffer s).

Inductive event : Type :=
| EvLock
| EvUnlock
| EvPoll (fd timeout : Z)
| EvUsleep (usec : Z)
| EvPopen (command : list byte)
| EvPclose
| EvKill (target signal : Z)
| EvRead (fd : Z) (count : nat)
| EvWrite (fd : Z) (bytes : list byte).

(** What [read(2)] answers: an error ([-1]) or the bytes waiting on the
    descriptor. *)
Inductive read_outcome : Type :=
| ReadErr
| ReadOk (data : list byte).

(** The kernel's answers during one iteration: [p[0].revents] after
    [poll]; for [popen("pgrep -P ...")] either failure or the numbers
    [atoi] makes of the lines [fgets] returns; the outcome of [read]. *)
Record answers : Type := mkAnswers {
  revents : Z;
  pgrep : option (list Z);
  read_ret : read_outcome
}.

(** [sprintf(number_buffer, "%d", pid)]. *)
Definition sprintf_d (n : Z) : list byte :=
  of_string (NilZero.string_of_int (Z.to_int n)).

Definition run_kill_child_pids (pid : Z) (children : option (list Z)) : list event :=
  let command_to_send := of_string "pgrep -P " ++ sprintf_d pid in
  EvPopen command_to_send ::
  match children with
  | None => []
  | Some numbers => map (fun child => EvKill child SIGINT) numbers ++ [EvPclose]
  end.

Definition set_sig_int_sent (b : bool) (s : state) : state :=
  mkState (pid s) (tty_fd s) (terminal_buffer s) (term_needs_update s) b
    (command_ready_to_send s) (command_buffer s) (command_buffer_pos s)
    (command_buffer_length s) (entered_command s) (cut_terminal s) (tmp_length s).

(** Lines 158-163: the pending interrupt. *)
Definition interrupt_step (k : answers) (s : state) : state * list event :=
  if sig_int_sent s
  then (set_sig_int_sent false s,
        run_kill_child_pids (pid s) (pgrep k) ++ [EvKill (pid s) SIGINT])
  else (s, []).

(** Lines 166-167: [read] into [terminal_buffer], then
    [terminal_buffer[readValue] = 0]. The kernel hands over at most
    [BUFFER_SIZE] bytes. *)
Definition read_into_buffer (r : read_outcome) (buf : list byte) : option (list byte) :=
  match r with
  | ReadErr => store buf (-1) NUL
  | ReadOk data =>
      let got := take (length buf) data in
      let readValue := Z.of_nat (length got) in
      store (memcpy_to_start buf got (length got)) readValue NUL
  end.

(** Lines 169-173: the first [tmp_length] bytes of the buffer, copied to a
    fresh block. Reading beyond the buffer (or a negative size) is
    undefined. *)
Definition cut_echo_candidate (tmp_length : Z) (buf : list byte)
    (cut_terminal : option (list byte)) : option (option (list byte)) :=
  if tmp_length =? 0 then Some cut_terminal
  else if (0 <? tmp_length) && (tmp_length <=? Z.of_nat (length buf))
       then Some (Some (take (Z.to_nat tmp_length) buf))
       else None.

(** The condition of line 175. *)
Definition genuine (entered_command cut_terminal : option (list byte)) : bool :=
  match entered_command, cut_terminal with
  | None, _ => true
  | Some _, None => true
  | Some e, Some c => (strlen e =? 0)%nat || negb (strcmp e c =? 0)
  end.

Section WithStripper.

(** [remove_escape_codes] of [termstr.h]: it rewrites the array it is
    given in place, so it is a function from arrays to arrays. *)
Variable remove_escape_codes : list byte -> list byte.

(** Lines 178-184. [copySize] is an [int] made of a [size_t] difference;
    the test [copySize-2 > 0] is taken on the mathematical value. The
    [memcpy] of line 181 reads
    [terminal_buffer + strlen(entered_command)] for [copySize] bytes, which
    must lie inside the array; source and destination may overlap, and the
    bytes copied are those the source held before the call (a copy from
    low to high addresses, the destination lying below the source). *)
Definition echo_branch (e buf : list byte) (flag : bool) : option (list byte * bool) :=
  let buf := remove_escape_codes buf in
  len ← strlen_arr buf;
  let copySize := to_int (to_size_t (Z.of_nat len - Z.of_nat (strlen e))) in
  if 0 <? copySize - 2 then
    if Z.of_nat (strlen e) + copySize <=? Z.of_nat (length buf) then
      let moved := memcpy_to_start buf (drop (strlen e) buf) (Z.to_nat copySize) in
      buf' ← store moved copySize NUL;
      Some (buf', true)
    else None
  else Some (buf, flag).

(** Lines 175-185: what becomes of the buffer and of the flag. *)
Definition publish (entered_command cut_terminal : option (list byte))
    (buf : list byte) (flag : bool) : option (list byte * bool) :=
  if genuine entered_command cut_terminal then Some (buf, true)
  else
    match entered_command, cut_terminal with
    | Some e, Some c =>
        if strcmp e c =? 0 then echo_branch e buf flag else Some (buf, flag)
    | _, _ => Some (buf, flag)
    end.

(** Lines 186-189. *)
Definition free_entered_command (entered_command : option (list byte)) : option (list byte) :=
  match entered_command with
  | Some e => if (0 <? strlen e)%nat then None else Some e
  | None => None
  end.

(** The state a read cycle ends in when it leaves [buf] and [flag]
    behind. Lines 190-193 leave [cut_terminal] NULL in every case. *)
Definition after_read (s : state) (buf : list byte) (flag : bool) : state :=
  mkState (pid s) (tty_fd s) buf flag (sig_int_sent s)
    (command_ready_to_send s) (command_buffer s) (command_buffer_pos s)
    (command_buffer_length s)
    (free_entered_command (entered_command s)) None (tmp_length s).

(** Lines 166-193: one read cycle. *)
Definition read_cycle (r : read_outcome) (s : state) : option (state * list event) :=
  buf ← read_into_buffer r (terminal_buffer s);
  cut ← cut_echo_candidate (tmp_length s) buf (cut_terminal s);
  '(buf', flag') ← publish (entered_command s) cut buf (term_needs_update s);
  Some (after_read s buf' flag', [EvRead (tty_fd s) (BUFFER_SIZE s)]).

(** Lines 196-205: the command send. The whole [command_buffer] is
    written; [command_buffer_length] bytes of it are kept for the echo
    match. *)
Definition write_cycle (s : state) : option (state * list event) :=
  let n := command_buffer_length s in
  if (0 <=? n) && (n <=? Z.of_nat (length (command_buffer s))) then
    Some (mkState (pid s) (tty_fd s) (terminal_buffer s) (term_needs_update s)
            (sig_int_sent s) false (zero_fill (command_buffer s)) 0 0
            (Some (take (Z.to_nat n) (command_buffer s))) (cut_terminal s) n,
          [EvWrite (tty_fd s) (command_buffer s)])
  else None.

(** Lines 165 and 195: which of the two branches runs. *)
Definition io_step (k : answers) (s : state) : option (state * list event) :=
  if negb (Z.land (revents k) POLLIN =? 0) && negb (term_needs_update s)
  then read_cycle (read_ret k) s
  else if negb (Z.land (revents k) POLLOUT =? 0) && command_ready_to_send s
  then write_cycle s
  else Some (s, []).

(** Lines 153-207: one iteration of [while (1)]. *)
Definition iteration (k : answers) (s : state) : option (state * list event) :=
  let '(s1, t1) := interrupt_step k s in
  '(s2, t2) ← io_step k s1;
  Some (s2, [EvLock; EvPoll (tty_fd s) 10; EvUsleep 100] ++ t1 ++ t2 ++ [EvUnlock]).

End WithStripper.

End Tty.

(** ** The start of [tty_thread]: geometry and [forkpty] *)
Module Session.
Import CStr CInt Tty.

(** [struct term_dimen]. *)
Record term_dimen : Type := mkDimen { width : Z; height : Z }.

(** [struct winsize]. *)
Record winsize : Type := mkWinsize {
  ws_row : Z;
  ws_col : Z;
  ws_xpixel : Z;
  ws_ypixel : Z
}.

(** Lines 134-138: [ws = {}], then columns and rows from the pixel size;
    both fields are [unsigned short]. *)
Definition tty_winsize (tty_dimen : term_dimen) : winsize :=
  mkWinsize (to_ushort (idiv (height tty_dimen) 16))
            (to_ushort (idiv (width tty_dimen) 8)) 0 0.

(** What [forkpty] answers: failure ([-1], nothing stored), the child
    ([0]) or the parent (the child's pid, the master stored in
    [tty_fd]). *)
Inductive forkpty_outcome : Type :=
| ForkFailed
| InChild
| InParent (child master : Z).

Definition forkpty_pid (f : forkpty_outcome) : Z :=
  match f with
  | ForkFailed => -1
  | InChild => 0
  | InParent child _ => child
  end.

Definition forkpty_fd (f : forkpty_outcome) (tty_fd : Z) : Z :=
  match f with
  | InParent _ master => master
  | _ => tty_fd
  end.

(** Where [tty_thread] goes after line 139: the child execs the shell,
    every other value of [pid] enters [while (1)]. *)
Inductive started : Type :=
| ExecShell (ws : winsize)
| Loop (ws : winsize) (s : state).


Definition tty_thread_start (arg : term_dimen) (f : forkpty_outcome) (s : state) : started :=
  let ws := tty_winsize arg in
  let pid := forkpty_pid f in
  if pid =? 0 then ExecShell ws
  else Loop ws
         (mkState pid (forkpty_fd f (tty_fd s)) (terminal_buffer s)
            (term_needs_update s) (sig_int_sent s) (command_ready_to_send s)
            (command_buffer s) (command_buffer_pos s) (command_buffer_length s)
            None None 0).

(** The statics of [terminal.c] before the thread starts, with the
    keyboard's globals at rest. *)
Definition static_state (buffer_size command_size : nat) : state :=
  mkState 0 0 (replicate buffer_size NUL) false false false
    (replicate command_size NUL) 0 0 None None 0.

End Session.

(** ** Console set-up: [ul_terminal_prepare_current_terminal] *)
Module Console.
Import CInt Session.

(** <linux/kd.h> *)
Definition KD_TEXT : Z := 0.
Definition KD_GRAPHICS : Z := 1.
Definition K_UNICODE : Z := 3.
Definition K_OFF : Z := 4.

Inductive request : Type :=
| KDGKBMODE
| KDSKBMODE (mode : Z)
| KDGETMODE
| KDSETMODE (mode : Z).

(** The statics [current_fd], [original_mode], [original_kb_mode], and
    the two modes of the console device the ioctls act on. *)
Record console : Type := mkConsole {
  current_fd : Z;
  original_mode : Z;
  original_kb_mode : Z;
  kb_mode : Z;
  vt_mode : Z
}.

Inductive event : Type :=
| EvClose (fd : Z)
| EvOpen (path : string)
| EvIoctl (fd : Z) (r : request)
| EvLog (message : string)
| EvPthreadCreate (arg : term_dimen).

(** The kernel's answers to the calls of the set-up, in program order. *)
Record answers : Type := mkAnswers {
  open_ret : Z;
  kdgkbmode_ret : Z;
  kdskbmode_ret : Z;
  kdgetmode_ret : Z;
  kdsetmode_ret : Z;
  pthread_create_ret : Z
}.

(** An ioctl that fails changes nothing; one that succeeds returns 0. *)
Definition ioctl (ret : Z) (r : request) (w : console) : console :=
  if ret =? 0 then
    match r with
    | KDGKBMODE => mkConsole (current_fd w) (original_mode w) (kb_mode w) (kb_mode w) (vt_mode w)
    | KDSKBMODE mode => mkConsole (current_fd w) (original_mode w) (original_kb_mode w) mode (vt_mode w)
    | KDGETMODE => mkConsole (current_fd w) (vt_mode w) (original_kb_mode w) (kb_mode w) (vt_mode w)
    | KDSETMODE mode => mkConsole (current_fd w) (original_mode w) (original_kb_mode w) (kb_mode w) mode
    end
  else w.

Definition set_current_fd (fd : Z) (w : console) : console :=
  mkConsole fd (original_mode w) (original_kb_mode w) (kb_mode w) (vt_mode w).

Definition close_current_terminal (w : console) : console * list event :=
  if current_fd w <? 0 then (w, [])
  else (set_current_fd (-1) w, [EvClose (current_fd w)]).

Definition reopen_current_terminal (open_ret : Z) (w : console) : bool * console * list event :=
  let '(w, t) := close_current_terminal w in
  let w := set_current_fd open_ret w in
  if current_fd w <? 0
  then (false, w, t ++ [EvOpen "/dev/tty0"; EvLog "Could not open /dev/tty0"])
  else (true, w, t ++ [EvOpen "/dev/tty0"]).

(** Lines 217-266. The result of [reopen_current_terminal] is dropped;
    the test is on [current_fd]. *)
Definition ul_terminal_prepare_current_terminal (k : answers)
    (term_width term_height : Z) (w : console) : bool * console * list event :=
  let '(_, w, t) := reopen_current_terminal (open_ret k) w in
  if current_fd w <? 0 then
    (false, w, t ++ [EvLog "Could not prepare current terminal"])
  else
  let fd := current_fd w in
  let w := ioctl (kdgkbmode_ret k) KDGKBMODE w in
  let t := t ++ [EvIoctl fd KDGKBMODE] in
  if negb (kdgkbmode_ret k =? 0) then
    (false, w, t ++ [EvLog "Could not get terminal keyboard mode"])
  else
  let w := ioctl (kdskbmode_ret k) (KDSKBMODE K_OFF) w in
  let t := t ++ [EvIoctl fd (KDSKBMODE K_OFF)] in
  if negb (kdskbmode_ret k =? 0) then
    (false, w, t ++ [EvLog "Could not set terminal keyboard mode to off"])
  else
  let w := ioctl (kdgetmode_ret k) KDGETMODE w in
  let t := t ++ [EvIoctl fd KDGETMODE] in
  if negb (kdgetmode_ret k =? 0) then
    (false, w, t ++ [EvLog "Could not get terminal mode"])
  else
  let w := ioctl (kdsetmode_ret k) (KDSETMODE KD_GRAPHICS) w in
  let t := t ++ [EvIoctl fd (KDSETMODE KD_GRAPHICS)] in
  if negb (kdsetmode_ret k =? 0) then
    (false, w, t ++ [EvLog "Could not set terminal mode to graphics"])
  else
  let dimen := mkDimen term_width term_height in
  let t := t ++ [EvPthreadCreate dimen] in
  if negb (pthread_create_ret k =? 0) then
    (false, w, t ++ [EvLog "Could not start TTY thread"])
  else (true, w, t).

(** The argument of the thread a successful set-up has created. *)
Definition thread_arg (t : list event) : option term_dimen :=
  match last t with
  | Some (EvPthreadCreate arg) => Some arg
  | _ => None
  end.

(** The console as the statics describe it before the first call. *)
Definition initial_console (kb vt : Z) : console :=
  mkConsole (-1) KD_TEXT K_UNICODE kb vt.

End Console.

(** ** A stand-in for the stripper *)
Module Stripper.
Import CStr.

Definition ESC : byte := x1b.

Definition is_letter (b : byte) : bool :=
  let n := Byte.to_N b in
  (((65 <=? n) && (n <=? 90)) || ((97 <=? n) && (n <=? 122)))%N.

(** Modelled from the spec: [remove_escape_codes] is declared in
    [termstr.h] and its body is not part of [terminal.c]. Section 4.2 asks
    for a pure transform that removes escape sequences in place, shifts the
    following bytes left, re-terminates, and strips an unterminated
    sequence to the end of the text. Here a sequence is ESC and what
    follows it up to and including the first ASCII letter. *)
Fixpoint strip_text (in_sequence : bool) (text : list byte) : list byte :=
  match text with
  | [] => []
  | b :: rest =>
      if in_sequence then strip_text (negb (is_letter b)) rest
      else if Byte.eqb b ESC then strip_text true rest
      else b :: strip_text false rest
  end.

(** Modelled from the spec: the in-place form of [strip_text] on a
    NUL-terminated array; bytes behind the new terminator keep their old
    values. *)
Definition remove_escape_codes (buf : list byte) : list byte :=
  if decide (strlen buf < length buf)%nat then
    let text := strip_text false (cstring buf) ++ [NUL] in
    memcpy_to_start buf text (length text)
  else buf.

End Stripper.

(** ** Vocabulary of the properties *)
Module Props.
Import CStr CInt Tty.

(** Read and write handling, as opposed to locking, polling and
    signalling. *)
Definition is_io (e : event) : bool :=
  match e with
  | EvRead _ _ | EvWrite _ _ => true
  | _ => false
  end.

Definition is_read (e : event) : bool :=
  match e with
  | EvRead _ _ => true
  | _ => false
  end.

Definition is_write (e : event) : bool :=
  match e with
  | EvWrite _ _ => true
  | _ => false
  end.

Definition readable (k : answers) : bool := negb (Z.land (revents k) POLLIN =? 0).
Definition writable (k : answers) : bool := negb (Z.land (revents k) POLLOUT =? 0).

(** What the loop keeps true of its echo window between iterations:
    [cut_terminal] is NULL, [tmp_length] fits the buffer, and a command
    that is held is [tmp_length] characters without NUL. *)
Record echo_window_ok (s : state) : Prop := mkEchoWindowOk {
  ew_cut : cut_terminal s = None;
  ew_range : 0 <= tmp_length s <= Z.of_nat (BUFFER_SIZE s);
  ew_text : forall e, entered_command s = Some e ->
            tmp_length s = Z.of_nat (length e) /\ NUL ∉ e
}.

(** A command the keyboard has staged: its length lies inside
    [command_buffer] and inside [terminal_buffer], and it is text (no NUL
    among its [command_buffer_length] characters). *)
Record command_ok (s : state) : Prop := mkCommandOk {
  co_range : 0 <= command_buffer_length s <= Z.of_nat (length (command_buffer s));
  co_fits : command_buffer_length s <= Z.of_nat (BUFFER_SIZE s);
  co_text : NUL ∉ take (Z.to_nat (command_buffer_length s)) (command_buffer s)
}.

(** The echo-suppression decision in the words of section 4.1 of the
    spec: a read is genuine new output when there is no outstanding echo
    window, or its text is empty, or the leading [length text] bytes of the
    data are not exactly the text. *)
Definition treated_as_genuine (echo_window : option (list byte)) (data : list byte) : Prop :=
  match echo_window with
  | None => True
  | Some text => text = [] \/ take (length text) data <> text
  end.

Section Runs.
Variable remove_escape_codes : list byte -> list byte.

(** Along a row of iterations: how many of them found the flag set and
    left it clear. *)
Fixpoint controller_clears (ks : list answers) (s : state) : option nat :=
  match ks with
  | [] => Some 0%nat
  | k :: rest =>
      '(s', _) ← iteration remove_escape_codes k s;
      n ← controller_clears rest s';
      Some (if term_needs_update s && negb (term_needs_update s') then S n else n)
  end.



End Runs.

(** Section 4.1 of the spec on the echo branch, as worded: only what
    follows the command in the stripped text is forwarded, and the flag is
    set exactly when that remainder is not empty. *)
Definition echo_remainder_as_worded : Prop :=
  forall (strip : list byte -> list byte) s data e buf,
    echo_window_ok s ->
    (length data < BUFFER_SIZE s)%nat ->
    Z.of_nat (BUFFER_SIZE s) < 2 ^ 31 ->
    term_needs_update s = false ->
    entered_command s = Some e ->
    e <> [] ->
    take (length e) data = e ->
    read_into_buffer (ReadOk data) (terminal_buffer s) = Some buf ->
    length (strip buf) = length buf ->
    (strlen (strip buf) < length (strip buf))%nat ->
    exists s' t,
      read_cycle strip (ReadOk data) s = Some (s', t) /\
      cstring (terminal_buffer s') = drop (length e) (cstring (strip buf)) /\
      (term_needs_update s' = true <-> drop (length e) (cstring (strip buf)) <> []).


End Props.

(** ** Concrete sessions *)
Module Scenario.
Import CStr CInt Tty Session Console Props.

(** A session with a 16-byte output buffer and an 8-byte command
    buffer, before anything has happened. *)
Definition idle : state := static_state 16 8.

Definition strip : list byte -> list byte := Stripper.remove_escape_codes.

Definition outcome (o : option (state * list Tty.event)) : state * list Tty.event :=
  default (idle, []) o.

(** The idle session with [text] put in the command buffer by the
    keyboard: its length recorded, the ready flag raised. *)
Definition staged (text : string) : state :=
  mkState 0 0 (replicate 16 NUL) false false true
    (of_string text ++ replicate (8 - String.length text) NUL)
    0 (Z.of_nat (String.length text)) None None 0.

(** The session after [text] has been staged and sent. *)
Definition sent (text : string) : state :=
  (outcome (write_cycle (staged text))).1.

(** The kernel reports the descriptor readable and writable and hands
    over [text]. *)
Definition incoming (text : string) : Tty.answers :=
  Tty.mkAnswers (Z.lor POLLIN POLLOUT) (Some [41; 42]) (ReadOk (of_string text)).

(** The output buffer right after [text] was read into the idle
    buffer. *)
Definition buffer_with (text : string) : list byte :=
  of_string text ++ replicate (16 - String.length text) NUL.

(** Every call of the set-up succeeds; [open] returns descriptor 3. *)
Definition all_fine : Console.answers := Console.mkAnswers 3 0 0 0 0 0.

(** The get-mode ioctl fails after the keyboard was switched off. *)
Definition getmode_fails : Console.answers := Console.mkAnswers 3 0 0 (-1) 0 0.

Definition text_console : console := initial_console K_UNICODE KD_TEXT.

End Scenario.

(** ** Console reset: [ul_terminal_reset_current_terminal] *)
Module Reset.
Import CInt Session Console.

(** The kernel's answers to the two ioctls of the reset, in program
    order. *)
Record reset_answers : Type := mkResetAnswers {
  rs_kdsetmode_ret : Z;
  rs_kdskbmode_ret : Z
}.

(** Lines 268-286. A failed ioctl is logged and the reset goes on. *)
Definition ul_terminal_reset_current_terminal (k : reset_answers) (w : console)
    : console * list event :=
  if current_fd w <? 0 then
    (w, [EvLog "Could not reset current terminal"])
  else
  let fd := current_fd w in
  let t := [EvIoctl fd (KDSETMODE (original_mode w))] in
  let w := ioctl (rs_kdsetmode_ret k) (KDSETMODE (original_mode w)) w in
  let t := if negb (rs_kdsetmode_ret k =? 0)
           then t ++ [EvLog "Could not reset terminal mode"] else t in
  let t := t ++ [EvIoctl fd (KDSKBMODE (original_kb_mode w))] in
  let w := ioctl (rs_kdskbmode_ret k) (KDSKBMODE (original_kb_mode w)) w in
  let t := if negb (rs_kdskbmode_ret k =? 0)
           then t ++ [EvLog "Could not reset terminal keyboard mode"] else t in
  let '(w, t') := close_current_terminal w in
  (w, t ++ t').

Definition is_ioctl (e : event) : bool :=
  match e with
  | EvIoctl _ _ => true
  | _ => false
  end.

Definition is_close (e : event) : bool :=
  match e with
  | EvClose _ => true
  | _ => false
  end.

End Reset.

(** ** The display's view: [ul_terminal_update_interpret_buffer] *)
Module Output.
Import CStr Tty.

(** Lines 288-291: the address of [terminal_buffer]; what the caller gets
    to see is the array as it stands. *)
Definition ul_terminal_update_interpret_buffer (s : state) : list byte :=
  terminal_buffer s.

(** The text a caller reads there as a C string. *)
Definition displayed_text (s : state) : list byte :=
  cstring (ul_terminal_update_interpret_buffer s).


Definition is_kill (e : event) : bool :=
  match e with
  | EvKill _ _ => true
  | _ => false
  end.

Definition is_popen (e : event) : bool :=
  match e with
  | EvPopen _ => true
  | _ => false
  end.

End Output.

(** ** Reading the answer of [pgrep]: lines 126-127 *)
Module Pgrep.
Import CStr Tty.

Definition NEWLINE : byte := x0a.

(** [isspace(3)] in the C locale. *)
Definition isspace (b : byte) : bool :=
  let n := Byte.to_N b in
  ((n =? 32) || ((9 <=? n) && (n <=? 13)))%N.

Definition is_digit (b : byte) : bool :=
  let n := Byte.to_N b in
  ((48 <=? n) && (n <=? 57))%N.

Definition digit_value (b : byte) : Z := Z.of_N (Byte.to_N b) - 48.

(** The digits at the start of a string, by Horner's rule. *)
Fixpoint atoi_digits (acc : Z) (l : list byte) : Z :=
  match l with
  | [] => acc
  | b :: l' => if is_digit b then atoi_digits (10 * acc + digit_value b) l' else acc
  end.

Fixpoint skip_space (l : list byte) : list byte :=
  match l with
  | [] => []
  | b :: l' => if isspace b then skip_space l' else l
  end.

(** [atoi(3)]: leading white space, an optional sign, then digits; the
    value is the mathematical one (the C function is defined for values
    that fit an [int]). *)
Definition atoi (l : list byte) : Z :=
  match skip_space l with
  | [] => 0
  | b :: l' =>
      if Byte.eqb b "-"%byte then - atoi_digits 0 l'
      else if Byte.eqb b "+"%byte then atoi_digits 0 l'
      else atoi_digits 0 (b :: l')
  end.

(** The characters one [fgets] stores when [room] more fit: up to and
    including a newline, or until the room or the stream ends. The second
    component is what is left of the stream. *)
Fixpoint fgets_chunk (room : nat) (stream : list byte) : list byte * list byte :=
  match room, stream with
  | O, _ => ([], stream)
  | _, [] => ([], [])
  | S room', b :: stream' =>
      if Byte.eqb b NEWLINE then ([b], stream')
      else let '(chunk, rest) := fgets_chunk room' stream' in (b :: chunk, rest)
  end.

(** [fgets(buf, size, fp)]: NULL at end of file, otherwise at most
    [size - 1] characters. *)
Definition fgets (size : nat) (stream : list byte) : option (list byte * list byte) :=
  match stream with
  | [] => None
  | _ => Some (fgets_chunk (size - 1) stream)
  end.

(** Lines 126-127: [while (fgets(number_buffer,20,fp) != NULL)] the number
    [atoi] reads is signalled. Every turn takes at least one character off
    the stream, so [fuel] as large as the stream is enough. *)
Fixpoint kill_numbers (fuel : nat) (stream : list byte) : list Z :=
  match fuel with
  | O => []
  | S fuel' =>
      match fgets 20 stream with
      | None => []
      | Some (number_buffer, rest) => atoi number_buffer :: kill_numbers fuel' rest
      end
  end.





End Pgrep.

(** ** Iterations in a row *)
Module Runs.
Import CStr Tty.

Section WithStripper.
Variable remove_escape_codes : list byte -> list byte.

(** The loop running on its own for as many iterations as there are
    answers, the other thread not touching the shared variables in
    between. *)
Fixpoint run (ks : list answers) (s : state) : option (state * list event) :=
  match ks with
  | [] => Some (s, [])
  | k :: ks' =>
      '(s1, t1) ← iteration remove_escape_codes k s;
      '(s2, t2) ← run ks' s1;
      Some (s2, t1 ++ t2)
  end.

End WithStripper.

End Runs.

(** ** More concrete sessions *)
Module Cases.
Import CStr CInt Tty Session Console Reset Props Scenario.

(** Both ioctls of the reset succeed. *)
Definition reset_fine : reset_answers := mkResetAnswers 0 0.

(** A second set-up in which [open] returns descriptor 4. *)
Definition all_fine_again : Console.answers := Console.mkAnswers 4 0 0 0 0 0.

(** The set-up finds the keyboard in unicode mode and the console in
    text mode, and succeeds. *)
Definition prepared : bool * console * list Console.event :=
  ul_terminal_prepare_current_terminal all_fine 256 512 text_console.

(** The kernel reports the descriptor writable only. *)
Definition writable_only : Tty.answers :=
  Tty.mkAnswers POLLOUT None ReadErr.

(** The idle session right after "hi" was read and published. *)
Definition published : state := (outcome (iteration strip (incoming "hi") idle)).1.

(** Output that carries an escape sequence: ESC [ 1 m h i. *)
Definition coloured : list byte := [x1b; x5b; x31; x6d; x68; x69].

(** The loop as entered after [forkpty] failed, with an interrupt
    request pending. *)
Definition after_failed_fork : state :=
  match tty_thread_start (mkDimen 256 512) ForkFailed (set_sig_int_sent true idle) with
  | Loop _ s => s
  | ExecShell _ => idle
  end.

(** A session whose output buffer holds 4 bytes, after a command of 6
    characters was sent from its 8-byte command buffer. *)
Definition too_long_sent : state :=
  (outcome (write_cycle
     (mkState 0 0 (replicate 4 NUL) false false true
        (of_string "ls -la" ++ replicate 2 NUL) 0 6 None None 0))).1.

(** The ioctl that restores the display mode fails. *)
Definition mode_reset_fails : reset_answers := mkResetAnswers (-1) 0.

End Cases.

(** * Facts *)

(** ** C strings *)
Module CStrFacts.
Import CStr.

Lemma is_nul_true b : is_nul b = true <-> b = NUL.
Proof.
  unfold is_nul. split.
  - apply Byte.byte_dec_bl.
  - apply Byte.byte_dec_lb.
Qed.

Lemma is_nul_false b : is_nul b = false <-> b <> NUL.
Proof.
  rewrite <- is_nul_true. destruct (is_nul b); split; congruence.
Qed.

Lemma eqb_refl b : Byte.eqb b b = true.
Proof. by apply Byte.byte_dec_lb. Qed.

Lemma uchar_inj x y : uchar x = uchar y -> x = y.
Proof.
  unfold uchar. intros H.
  assert (E : Byte.to_N x = Byte.to_N y) by lia.
  pose proof (Byte.of_to_N x) as Hx. pose proof (Byte.of_to_N y) as Hy.
  rewrite E in Hx. congruence.
Qed.

Lemma uchar_NUL : uchar NUL = 0.
Proof. reflexivity. Qed.

Lemma uchar_zero b : uchar b = 0 -> b = NUL.
Proof. intros H. apply uchar_inj. by rewrite uchar_NUL. Qed.

Lemma cstring_nul_free l : NUL ∉ cstring l.
Proof.
  induction l as [|b l IH]; simpl.
  - apply not_elem_of_nil.
  - destruct (is_nul b) eqn:E.
    + apply not_elem_of_nil.
    + apply is_nul_false in E. rewrite not_elem_of_cons. split; [congruence | done].
Qed.

Lemma cstring_take l : cstring l = take (strlen l) l.
Proof.
  unfold strlen. induction l as [|b l IH]; simpl; [done|].
  destruct (is_nul b); simpl; [done | by f_equal].
Qed.

Lemma strlen_le l : (strlen l <= length l)%nat.
Proof.
  unfold strlen. induction l as [|b l IH]; simpl; [lia|].
  destruct (is_nul b); simpl; lia.
Qed.

Lemma strlen_lookup l : (strlen l < length l)%nat -> l !! strlen l = Some NUL.
Proof.
  unfold strlen. induction l as [|b l IH]; simpl; [lia|].
  destruct (is_nul b) eqn:E; simpl.
  - intros _. apply is_nul_true in E. by subst.
  - intros H. apply IH. lia.
Qed.

Lemma cstring_id l : NUL ∉ l -> cstring l = l.
Proof.
  induction l as [|b l IH]; simpl; [done|].
  rewrite not_elem_of_cons. intros [Hb Hl].
  assert (E : is_nul b = false) by (apply is_nul_false; congruence).
  rewrite E. f_equal. by apply IH.
Qed.

Lemma cstring_app_nul p r : NUL ∉ p -> cstring (p ++ NUL :: r) = p.
Proof.
  induction p as [|b p IH]; simpl.
  - intros _. reflexivity.
  - rewrite not_elem_of_cons. intros [Hb Hp].
    assert (E : is_nul b = false) by (apply is_nul_false; congruence).
    rewrite E. f_equal. by apply IH.
Qed.

Lemma cstring_idemp l : cstring (cstring l) = cstring l.
Proof. apply cstring_id, cstring_nul_free. Qed.

Lemma strlen_nul_free l : NUL ∉ l -> strlen l = length l.
Proof. intros H. unfold strlen. by rewrite cstring_id. Qed.

Lemma strlen_zero l : strlen l = 0%nat <-> cstring l = [].
Proof. unfold strlen. split; [apply nil_length_inv | by intros ->]. Qed.

(** [strcmp] answers 0 exactly on equal strings. *)
Lemma strcmp_zero a b : strcmp a b = 0 <-> cstring a = cstring b.
Proof.
  revert b. induction a as [|x a IH]; intros [|y b]; simpl.
  - done.
  - destruct (is_nul y) eqn:E.
    + apply is_nul_true in E. subst. by rewrite uchar_NUL.
    + apply is_nul_false in E. split; [|done].
      intros H. exfalso. apply E, uchar_zero. lia.
  - destruct (is_nul x) eqn:E.
    + apply is_nul_true in E. subst. by rewrite uchar_NUL.
    + apply is_nul_false in E. split; [|done].
      intros H. exfalso. apply E, uchar_zero. lia.
  - destruct (Byte.eqb x y) eqn:Exy.
    + apply Byte.byte_dec_bl in Exy. subst y.
      destruct (is_nul x); [done|].
      rewrite IH. split; [by intros -> | by intros [=]].
    + assert (Hne : x <> y).
      { intros ->. by rewrite eqb_refl in Exy. }
      split.
      * intros H. exfalso. apply Hne, uchar_inj. lia.
      * destruct (is_nul x) eqn:Ex, (is_nul y) eqn:Ey; try done.
        -- apply is_nul_true in Ex, Ey. congruence.
        -- intros [=]. congruence.
Qed.

Lemma strlen_arr_Some buf n :
  strlen_arr buf = Some n <-> n = strlen buf /\ (strlen buf < length buf)%nat.
Proof.
  unfold strlen_arr. case_decide.
  - split; [intros [= <-]; done | intros [-> _]; done].
  - split; [done | intros [_ ?]; done].
Qed.

Lemma store_Some buf i c buf' :
  store buf i c = Some buf' <->
  0 <= i < Z.of_nat (length buf) /\ buf' = <[Z.to_nat i := c]> buf.
Proof.
  unfold store.
  destruct (Z.leb_spec 0 i), (Z.ltb_spec i (Z.of_nat (length buf))); simpl.
  - split; [intros [= <-]; split; [lia | done] | intros [_ ->]; done].
  - split; [done | lia].
  - split; [done | lia].
  - split; [done | lia].
Qed.

Lemma store_length buf i c buf' : store buf i c = Some buf' -> length buf' = length buf.
Proof. intros [_ ->]%store_Some. apply length_insert. Qed.

End CStrFacts.

Module CIntFacts.
Import CInt.

Lemma to_int_size_t z : - 2 ^ 31 <= z < 2 ^ 31 -> to_int (to_size_t z) = z.
Proof.
  intros H. unfold to_int, to_size_t.
  assert (E : (z mod 2 ^ 64) mod 2 ^ 32 = z mod 2 ^ 32).
  { apply Z.mod_mod_divide. exists (2 ^ 32). reflexivity. }
  rewrite E.
  destruct (Z_lt_le_dec z 0).
  - assert (z mod 2 ^ 32 = z + 2 ^ 32).
    { symmetry. apply Z.mod_unique with (q := -1); lia. }
    destruct (Z.ltb_spec (z mod 2 ^ 32) (2 ^ 31)); lia.
  - rewrite Z.mod_small by lia.
    destruct (Z.ltb_spec z (2 ^ 31)); lia.
Qed.

End CIntFacts.

(** ** The read cycle *)
Module ReadFacts.
Import CStr CInt Tty Props CStrFacts CIntFacts.

Lemma strlen_app_nul_le p r : (strlen (p ++ NUL :: r) <= length p)%nat.
Proof.
  unfold strlen. induction p as [|b p IH]; simpl; [done|].
  destruct (is_nul b); simpl; lia.
Qed.

(** The buffer after lines 166-167 when the read fits: the data, the
    terminator, and what the buffer held behind it. *)
Lemma read_into_buffer_ok data buf :
  (length data < length buf)%nat ->
  read_into_buffer (ReadOk data) buf =
    Some (data ++ NUL :: drop (S (length data)) buf).
Proof.
  intros Hlt. unfold read_into_buffer, memcpy_to_start.
  rewrite (take_ge data) by lia. rewrite (take_ge data) by lia.
  destruct (lookup_lt_is_Some_2 buf (length data) Hlt) as [x Hx].
  apply store_Some. rewrite length_app, length_drop. split; [lia|].
  rewrite Nat2Z.id, insert_app_r_alt by lia.
  rewrite Nat.sub_diag, (drop_S _ _ _ Hx). reflexivity.
Qed.

Lemma read_into_buffer_length r buf buf' :
  read_into_buffer r buf = Some buf' -> length buf' = length buf.
Proof.
  destruct r as [|data]; simpl; intros H; apply store_length in H; rewrite H.
  - done.
  - unfold memcpy_to_start. rewrite length_app, length_take, length_drop.
    rewrite length_take. lia.
Qed.

(** With a command free of NUL, comparing it as a string with the first
    [length e] bytes of the buffer is comparing it with the first
    [length e] bytes that were read. *)
Lemma echo_match e data rest :
  NUL ∉ e ->
  cstring (take (length e) (data ++ NUL :: rest)) = e <-> take (length e) data = e.
Proof.
  intros He. destruct (le_lt_dec (length e) (length data)) as [Hle|Hgt].
  - rewrite take_app_le by done. split.
    + intros H. pose proof (cstring_take (take (length e) data)) as Ht.
      assert (Hn : strlen (take (length e) data) = length e)
        by (unfold strlen; by rewrite H).
      rewrite Hn, take_take, Nat.min_id in Ht. congruence.
    + intros ->. by apply cstring_id.
  - split; intros H; exfalso.
    + assert (Hl : (strlen (take (length e) (data ++ NUL :: rest)) <= length data)%nat).
      { rewrite take_app_ge by lia.
        destruct (length e - length data)%nat as [|m] eqn:Em; [lia|].
        simpl. apply strlen_app_nul_le. }
      unfold strlen in Hl. rewrite H in Hl. lia.
    + apply (f_equal length) in H. rewrite length_take in H. lia.
Qed.

(** The buffer and the candidate a read cycle works with, from a state
    that satisfies the loop's invariant. *)
Lemma read_prelude s data :
  echo_window_ok s ->
  (length data < BUFFER_SIZE s)%nat ->
  let buf := data ++ NUL :: drop (S (length data)) (terminal_buffer s) in
  read_into_buffer (ReadOk data) (terminal_buffer s) = Some buf /\
  cut_echo_candidate (tmp_length s) buf (cut_terminal s) =
    Some (if tmp_length s =? 0 then None
          else Some (take (Z.to_nat (tmp_length s)) buf)).
Proof.
  intros [Hcut Hrange Htext] Hlt buf. unfold BUFFER_SIZE in *.
  pose proof (read_into_buffer_ok data _ Hlt) as Hread.
  split; [exact Hread|].
  apply read_into_buffer_length in Hread. fold buf in Hread.
  unfold cut_echo_candidate. rewrite Hcut.
  destruct (Z.eqb_spec (tmp_length s) 0); [done|].
  destruct (Z.ltb_spec 0 (tmp_length s)); [|lia].
  destruct (Z.leb_spec (tmp_length s) (Z.of_nat (length buf))); [done|lia].
Qed.

(** Line 175 decides what the spec words. *)
Lemma genuine_iff s data :
  echo_window_ok s ->
  let buf := data ++ NUL :: drop (S (length data)) (terminal_buffer s) in
  let cut := if tmp_length s =? 0 then None
             else Some (take (Z.to_nat (tmp_length s)) buf) in
  genuine (entered_command s) cut = true <->
  treated_as_genuine (entered_command s) data.
Proof.
  intros [Hcut Hrange Htext] buf cut. unfold genuine, treated_as_genuine.
  destruct (entered_command s) as [e|] eqn:Ee; [|done].
  destruct (Htext e eq_refl) as [Hlen Hnul].
  subst cut. destruct (Z.eqb_spec (tmp_length s) 0) as [Hz|Hnz].
  - assert (e = []) as -> by (apply nil_length_inv; lia). split; auto.
  - rewrite Hlen, Nat2Z.id.
    assert (He : e <> []) by (intros ->; simpl in Hlen; lia).
    rewrite (strlen_nul_free e Hnul).
    destruct (Nat.eqb_spec (length e) 0) as [E0|_].
    { apply nil_length_inv in E0. done. }
    simpl. rewrite negb_true_iff, Z.eqb_neq, strcmp_zero, (cstring_id e Hnul).
    subst buf. split.
    + intros Hne. right. intros Hm. apply Hne. symmetry. by apply echo_match.
    + intros [?|Hne] Hm; [done|]. apply Hne.
      eapply (echo_match e data _ Hnul). symmetry. exact Hm.
Qed.

End ReadFacts.

(** ** The echo branch *)
Module EchoFacts.
Import CStr CInt Tty Props CStrFacts CIntFacts ReadFacts.

Section WithStripper.
Variable remove_escape_codes : list byte -> list byte.

(** Lines 178-184 on a buffer the stripper leaves terminated: with more
    than two characters behind the command the buffer is cut down to them
    and the flag is raised; otherwise the stripped buffer stays and the flag
    is left alone. *)
Lemma echo_branch_spec e buf flag :
  let stripped := remove_escape_codes buf in
  (strlen stripped < length stripped)%nat ->
  Z.of_nat (length stripped) < 2 ^ 31 ->
  Z.of_nat (strlen e) < 2 ^ 31 ->
  let copySize := Z.of_nat (strlen stripped) - Z.of_nat (strlen e) in
  (2 < copySize ->
     exists buf', echo_branch remove_escape_codes e buf flag = Some (buf', true) /\
       cstring buf' = drop (strlen e) (cstring stripped) /\
       length buf' = length stripped) /\
  (copySize <= 2 ->
     echo_branch remove_escape_codes e buf flag = Some (stripped, flag)).
Proof.
  intros stripped Hterm Hsize He copySize.
  assert (Hlen : strlen_arr stripped = Some (strlen stripped))
    by (apply strlen_arr_Some; done).
  assert (Hcs : to_int (to_size_t copySize) = copySize)
    by (apply to_int_size_t; unfold copySize; lia).
  unfold echo_branch. fold stripped. rewrite Hlen. simpl.
  fold copySize. rewrite Hcs. split.
  - intros Hgt. destruct (Z.ltb_spec 0 (copySize - 2)); [|lia].
    destruct (Z.leb_spec (Z.of_nat (strlen e) + copySize) (Z.of_nat (length stripped)));
      [|unfold copySize in *; lia].
    set (n := strlen e). set (c := Z.to_nat copySize).
    assert (Hc : (n + c = strlen stripped)%nat) by (unfold c, copySize, n; lia).
    set (kept := take c (drop n stripped)).
    assert (Hkept : kept = drop n (cstring stripped)).
    { unfold kept. rewrite take_drop_commute, Hc. by rewrite <- cstring_take. }
    assert (Hkl : length kept = c).
    { unfold kept. rewrite length_take, length_drop. lia. }
    destruct (lookup_lt_is_Some_2 stripped c) as [x Hx]; [lia|].
    exists (kept ++ NUL :: drop (S c) stripped). split; [|split].
    + unfold memcpy_to_start. fold kept.
      assert (Hst : store (kept ++ drop c stripped) copySize NUL =
                    Some (kept ++ NUL :: drop (S c) stripped)).
      { apply store_Some. rewrite length_app, length_drop, Hkl. split; [lia|].
        fold c. rewrite insert_app_r_alt by lia.
        rewrite Hkl, Nat.sub_diag, (drop_S _ _ _ Hx). reflexivity. }
      rewrite Hst. reflexivity.
    + rewrite cstring_app_nul; [done|].
      rewrite Hkept. intros Hin. apply list_elem_of_lookup in Hin as [i Hi].
      rewrite lookup_drop in Hi. apply (cstring_nul_free stripped).
      apply list_elem_of_lookup. eauto.
    + rewrite length_app. simpl. rewrite length_drop, Hkl. lia.
  - intros Hle. destruct (Z.ltb_spec 0 (copySize - 2)); [lia|done].
Qed.

(** A read cycle from a state that satisfies the invariant, resolved
    along the spec's condition. *)
Lemma read_cycle_branches s data :
  echo_window_ok s ->
  (length data < BUFFER_SIZE s)%nat ->
  let buf := data ++ NUL :: drop (S (length data)) (terminal_buffer s) in
  (treated_as_genuine (entered_command s) data ->
     read_cycle remove_escape_codes (ReadOk data) s =
       Some (after_read s buf true, [EvRead (tty_fd s) (BUFFER_SIZE s)])) /\
  (~ treated_as_genuine (entered_command s) data ->
     exists e, entered_command s = Some e /\
       read_cycle remove_escape_codes (ReadOk data) s =
         ('(buf', flag') ← echo_branch remove_escape_codes e buf (term_needs_update s);
          Some (after_read s buf' flag', [EvRead (tty_fd s) (BUFFER_SIZE s)]))).
Proof.
  intros Hok Hfit buf.
  destruct (read_prelude s data Hok Hfit) as [Hread Hcut].
  pose proof (genuine_iff s data Hok) as Hiff. cbv zeta in Hiff, Hread, Hcut.
  fold buf in Hread, Hcut, Hiff.
  unfold read_cycle. rewrite Hread. simpl. rewrite Hcut. simpl.
  unfold publish. split.
  - intros Hg. apply Hiff in Hg. rewrite Hg. reflexivity.
  - intros Hng.
    destruct (genuine (entered_command s) _) eqn:Eg; [exfalso; by apply Hng, Hiff|].
    unfold genuine in Eg.
    destruct (entered_command s) as [e|]; [|done].
    exists e. split; [done|].
    destruct (if tmp_length s =? 0 then None else Some _) as [c|]; [|done].
    apply orb_false_iff in Eg as [_ Eg]. apply negb_false_iff in Eg.
    rewrite Eg. reflexivity.
Qed.

End WithStripper.

End EchoFacts.

(** ** Echo suppression: properties of a read cycle *)
Module EchoSuppression.
Import CStr CInt Tty Props CStrFacts CIntFacts ReadFacts EchoFacts.

Section WithStripper.
Variable remove_escape_codes : list byte -> list byte.


(** C2, amended. In the echo branch the escape sequences are stripped from
    the buffer. When more than two characters follow the first
    [length e] characters of the stripped text, the buffer is cut down to
    those following characters and the flag is set. When at most two
    follow, the stripped text stays in the buffer as it is and the flag is
    not set. The echo window is gone either way. *)
Theorem C2_echo_remainder s data e buf :
  echo_window_ok s ->
  (length data < BUFFER_SIZE s)%nat ->
  Z.of_nat (BUFFER_SIZE s) < 2 ^ 31 ->
  term_needs_update s = false ->
  entered_command s = Some e ->
  e <> [] ->
  take (length e) data = e ->
  read_into_buffer (ReadOk data) (terminal_buffer s) = Some buf ->
  let stripped := remove_escape_codes buf in
  let text := cstring stripped in
  length stripped = length buf ->
  (strlen stripped < length stripped)%nat ->
  exists s',
    read_cycle remove_escape_codes (ReadOk data) s =
      Some (s', [EvRead (tty_fd s) (BUFFER_SIZE s)]) /\
    entered_command s' = None /\
    ((length e + 2 < length text)%nat ->
       cstring (terminal_buffer s') = drop (length e) text /\
       term_needs_update s' = true) /\
    ((length text <= length e + 2)%nat ->
       terminal_buffer s' = stripped /\ term_needs_update s' = false).
Proof.
  intros Hok Hfit Hsize Hflag He Hne Hmatch Hbuf stripped text Hlen Hterm.
  destruct (read_prelude s data Hok Hfit) as [Hread _].
  destruct (read_cycle_branches remove_escape_codes s data Hok Hfit) as [_ Hecho].
  cbv zeta in Hread, Hecho.
  assert (data ++ NUL :: drop (S (length data)) (terminal_buffer s) = buf) as Hb0
    by congruence.
  rewrite Hb0 in Hecho, Hread.
  destruct (ew_text s Hok e He) as [Htmp Hnul].
  destruct Hecho as (e' & He' & Hcycle).
  { rewrite He. simpl. intros [?|?]; done. }
  assert (e' = e) as -> by congruence.
  pose proof (read_into_buffer_length _ _ _ Hread) as Hbl.
  assert (Hes : strlen e = length e) by by apply strlen_nul_free.
  assert (Hel : Z.of_nat (strlen e) < 2 ^ 31).
  { rewrite Hes, <- Htmp. pose proof (ew_range s Hok). lia. }
  assert (Hsl : Z.of_nat (length stripped) < 2 ^ 31).
  { rewrite Hlen, Hbl. exact Hsize. }
  destruct (echo_branch_spec remove_escape_codes e buf (term_needs_update s)
              Hterm Hsl Hel) as [Hbig Hsmall].
  fold stripped in Hbig, Hsmall.
  assert (Hfree : free_entered_command (entered_command s) = None).
  { rewrite He. simpl. rewrite Hes.
    destruct e; [done|reflexivity]. }
  unfold text, strlen in *. fold (strlen stripped) in *.
  destruct (le_lt_dec (strlen stripped) (length e + 2)) as [Hle|Hgt].
  - rewrite Hsmall in Hcycle by (rewrite Hes; unfold strlen in *; lia).
    simpl in Hcycle. eexists. split; [exact Hcycle|].
    split; [exact Hfree|]. split; [unfold strlen in *; lia|].
    intros _. simpl. done.
  - destruct Hbig as (buf' & Hb & Hc & _); [rewrite Hes; unfold strlen in *; lia|].
    rewrite Hb in Hcycle. simpl in Hcycle. eexists. split; [exact Hcycle|].
    split; [exact Hfree|]. split; [|unfold strlen in *; lia].
    intros _. simpl. rewrite Hc, Hes. done.
Qed.

(** C9. Lines 178-185, entered with the flag clear: the flag is set, and
    the buffer cut down to what follows the command, if and only if the
    length of the stripped buffer minus the length of the command is
    greater than 2; with a difference of 1 or 2 the flag stays clear and
    the buffer keeps the stripped text, so nothing is published. *)
Theorem C9_echo_threshold e buf :
  let stripped := remove_escape_codes buf in
  let difference := Z.of_nat (strlen stripped) - Z.of_nat (strlen e) in
  (strlen stripped < length stripped)%nat ->
  Z.of_nat (length stripped) < 2 ^ 31 ->
  Z.of_nat (strlen e) < 2 ^ 31 ->
  exists buf' flag',
    echo_branch remove_escape_codes e buf false = Some (buf', flag') /\
    (flag' = true <-> 2 < difference) /\
    (2 < difference -> cstring buf' = drop (strlen e) (cstring stripped)) /\
    (difference = 1 \/ difference = 2 -> flag' = false /\ buf' = stripped).
Proof.
  intros stripped difference Hterm Hsl Hel.
  destruct (echo_branch_spec remove_escape_codes e buf false Hterm Hsl Hel)
    as [Hbig Hsmall].
  fold stripped in Hbig, Hsmall. fold difference in Hbig, Hsmall.
  destruct (Z_lt_le_dec 2 difference) as [Hgt|Hle].
  - destruct (Hbig Hgt) as (buf' & Hb & Hc & _).
    exists buf', true. split; [exact Hb|].
    split; [done|]. split; [done|]. lia.
  - exists stripped, false. split; [by apply Hsmall|].
    split; [split; [done|lia]|]. split; [lia|done].
Qed.


End WithStripper.

End EchoSuppression.

(** ** One iteration of the loop *)
Module LoopFacts.
Import CStr CInt Tty Props CStrFacts CIntFacts ReadFacts EchoFacts.

Lemma run_kill_child_pids_no_io pid children :
  List.filter is_io (run_kill_child_pids pid children) = [].
Proof.
  unfold run_kill_child_pids. destruct children as [numbers|]; simpl; [|done].
  rewrite List.filter_app. simpl. rewrite app_nil_r.
  induction numbers as [|c numbers IH]; simpl; done.
Qed.

Lemma interrupt_step_no_io k s : List.filter is_io (interrupt_step k s).2 = [].
Proof.
  unfold interrupt_step. destruct (sig_int_sent s); [|done].
  cbn [snd]. rewrite List.filter_app, run_kill_child_pids_no_io. done.
Qed.

Lemma interrupt_step_state k s :
  (interrupt_step k s).1 = set_sig_int_sent false s.
Proof.
  unfold interrupt_step. destruct (sig_int_sent s) eqn:E; simpl; [done|].
  destruct s; simpl in *. by subst.
Qed.

Section WithStripper.
Variable remove_escape_codes : list byte -> list byte.

Lemma read_cycle_inv r s s' t :
  read_cycle remove_escape_codes r s = Some (s', t) ->
  exists buf flag, s' = after_read s buf flag /\
                   t = [EvRead (tty_fd s) (BUFFER_SIZE s)].
Proof.
  unfold read_cycle. intros H.
  destruct (read_into_buffer r (terminal_buffer s)) as [buf|]; [|done].
  simpl in H.
  destruct (cut_echo_candidate (tmp_length s) buf (cut_terminal s)) as [cut|]; [|done].
  simpl in H.
  destruct (publish remove_escape_codes (entered_command s) cut buf (term_needs_update s))
    as [[buf' flag']|]; [|done].
  simpl in H. injection H as <- <-. eauto.
Qed.

Lemma write_cycle_inv s s' t :
  write_cycle s = Some (s', t) ->
  t = [EvWrite (tty_fd s) (command_buffer s)] /\
  terminal_buffer s' = terminal_buffer s /\
  term_needs_update s' = term_needs_update s /\
  sig_int_sent s' = sig_int_sent s /\
  command_ready_to_send s' = false /\
  entered_command s' =
    Some (take (Z.to_nat (command_buffer_length s)) (command_buffer s)) /\
  tmp_length s' = command_buffer_length s /\
  cut_terminal s' = cut_terminal s.
Proof.
  unfold write_cycle. destruct (_ && _); [|done].
  intros [= <- <-]. simpl. repeat split.
Qed.

(** The three ways through lines 165-206. *)
Lemma io_step_cases k s s' io :
  io_step remove_escape_codes k s = Some (s', io) ->
  (readable k = true /\ term_needs_update s = false /\
   read_cycle remove_escape_codes (read_ret k) s = Some (s', io) /\
   io = [EvRead (tty_fd s) (BUFFER_SIZE s)]) \/
  (readable k && negb (term_needs_update s) = false /\
   writable k = true /\ command_ready_to_send s = true /\
   write_cycle s = Some (s', io) /\
   io = [EvWrite (tty_fd s) (command_buffer s)]) \/
  (readable k && negb (term_needs_update s) = false /\
   writable k && command_ready_to_send s = false /\
   s' = s /\ io = []).
Proof.
  unfold io_step. fold (readable k). fold (writable k).
  destruct (readable k && negb (term_needs_update s)) eqn:Er.
  - intros H. left. apply andb_true_iff in Er as [Hr Hf].
    apply negb_true_iff in Hf.
    destruct (read_cycle_inv _ _ _ _ H) as (? & ? & _ & ->). done.
  - destruct (writable k && command_ready_to_send s) eqn:Ew.
    + intros H. right. left. apply andb_true_iff in Ew as [Hw Hc].
      pose proof (write_cycle_inv _ _ _ H) as [-> _]. done.
    + intros [= <- <-]. right. right. done.
Qed.

(** The trace of an iteration: lock, poll, sleep, the interrupt, the
    I/O branch, unlock. *)
Lemma iteration_inv k s s' t :
  iteration remove_escape_codes k s = Some (s', t) ->
  exists io,
    io_step remove_escape_codes k (set_sig_int_sent false s) = Some (s', io) /\
    t = [EvLock; EvPoll (tty_fd s) 10; EvUsleep 100] ++
        (interrupt_step k s).2 ++ io ++ [EvUnlock].
Proof.
  unfold iteration. pose proof (interrupt_step_state k s) as Hs.
  destruct (interrupt_step k s) as [s1 t1]. simpl in Hs. subst s1.
  destruct (io_step _ _ _) as [[s2 t2]|]; [|done].
  simpl. intros [= <- <-]. eauto.
Qed.

Lemma iteration_io k s s' t :
  iteration remove_escape_codes k s = Some (s', t) ->
  exists io,
    io_step remove_escape_codes k (set_sig_int_sent false s) = Some (s', io) /\
    List.filter is_io t = io /\
    List.filter is_read t = List.filter is_read io /\
    List.filter is_write t = List.filter is_write io.
Proof.
  intros H. destruct (iteration_inv _ _ _ _ H) as (io & Hio & ->).
  exists io. split; [done|].
  pose proof (interrupt_step_no_io k s) as Hn.
  assert (Hr : List.filter is_read (interrupt_step k s).2 = []).
  { revert Hn. generalize (interrupt_step k s).2. intros l.
    induction l as [|[] l IH]; simpl; try done. }
  assert (Hw : List.filter is_write (interrupt_step k s).2 = []).
  { revert Hn. generalize (interrupt_step k s).2. intros l.
    induction l as [|[] l IH]; simpl; try done. }
  simpl. rewrite !List.filter_app, Hn, Hr, Hw. simpl.
  destruct (io_step_cases _ _ _ _ Hio) as [(_ & _ & _ & ->)|[(_ & _ & _ & _ & ->)|(_ & _ & _ & ->)]];
    done.
Qed.

End WithStripper.

End LoopFacts.

(** ** Properties of an iteration *)
Module Multiplex.
Import CStr CInt Tty Props CStrFacts CIntFacts ReadFacts EchoFacts LoopFacts.

Section WithStripper.
Variable remove_escape_codes : list byte -> list byte.

Lemma io_step_sig_int_sent k s s' io :
  io_step remove_escape_codes k s = Some (s', io) ->
  sig_int_sent s' = sig_int_sent s.
Proof.
  intros H.
  destruct (io_step_cases _ _ _ _ _ H)
    as [(_ & _ & Hr & _)|[(_ & _ & _ & Hw & _)|(_ & _ & -> & _)]]; [| |done].
  - destruct (read_cycle_inv _ _ _ _ _ Hr) as (? & ? & -> & _). done.
  - by destruct (write_cycle_inv _ _ _ Hw) as (_ & _ & _ & -> & _).
Qed.

(** C4. An iteration that finds the interrupt request pending has this
    trace: lock, poll, sleep; the query for the children of the shell and
    an interrupt signal to each number it returns; an interrupt signal to
    the shell; then whatever the read or write branch does; unlock.
    Nothing before the I/O part is a read or a write, the I/O branch runs
    from the state in which the request is already cleared, and the
    request is clear when the iteration ends. *)
Theorem C4_interrupt_before_io k s s' t :
  sig_int_sent s = true ->
  iteration remove_escape_codes k s = Some (s', t) ->
  exists io,
    t = [EvLock; EvPoll (tty_fd s) 10; EvUsleep 100] ++
        run_kill_child_pids (pid s) (pgrep k) ++
        [EvKill (pid s) SIGINT] ++ io ++ [EvUnlock] /\
    (forall children, pgrep k = Some children ->
       run_kill_child_pids (pid s) (pgrep k) =
         EvPopen (of_string "pgrep -P " ++ sprintf_d (pid s)) ::
         map (fun child => EvKill child SIGINT) children ++ [EvPclose]) /\
    List.filter is_io
      ([EvLock; EvPoll (tty_fd s) 10; EvUsleep 100] ++
       run_kill_child_pids (pid s) (pgrep k) ++ [EvKill (pid s) SIGINT]) = [] /\
    List.filter is_io t = io /\
    io_step remove_escape_codes k (set_sig_int_sent false s) = Some (s', io) /\
    sig_int_sent s' = false.
Proof.
  intros Hsig H.
  destruct (iteration_inv _ _ _ _ _ H) as (io & Hio & Ht).
  destruct (iteration_io _ _ _ _ _ H) as (io' & Hio' & Hf & _).
  assert (io' = io) as -> by congruence.
  exists io. unfold interrupt_step in Ht. rewrite Hsig in Ht. cbn [snd] in Ht.
  split; [by rewrite Ht, <- !app_assoc|].
  split; [by intros children ->|].
  split.
  { rewrite !List.filter_app, run_kill_child_pids_no_io. done. }
  split; [done|]. split; [done|].
  by rewrite (io_step_sig_int_sent _ _ _ _ Hio).
Qed.

(** C5. Among the events of an iteration there is at most one read or
    write. When the descriptor is readable and the flag is clear it is the
    read, whether or not a command is ready. A read happens only with the
    flag clear, and then no write happens; a write happens only when the
    read branch was not taken. *)
Theorem C5_one_branch_per_iteration k s s' t :
  iteration remove_escape_codes k s = Some (s', t) ->
  (length (List.filter is_io t) <= 1)%nat /\
  (readable k = true -> term_needs_update s = false ->
     List.filter is_io t = [EvRead (tty_fd s) (BUFFER_SIZE s)]) /\
  (List.filter is_read t <> [] ->
     term_needs_update s = false /\ readable k = true /\
     List.filter is_write t = []) /\
  (List.filter is_write t <> [] ->
     readable k && negb (term_needs_update s) = false /\
     writable k = true /\ command_ready_to_send s = true /\
     List.filter is_read t = []).
Proof.
  intros H.
  destruct (iteration_io _ _ _ _ _ H) as (io & Hio & -> & -> & ->).
  destruct (io_step_cases _ _ _ _ _ Hio)
    as [(Hr & Hf & _ & ->)|[(Hn & Hw & Hc & _ & ->)|(Hn & _ & _ & ->)]];
    simpl in *.
  - split; [lia|]. split; [done|]. split; [done|]. intros Hne. done.
  - split; [lia|]. split.
    { intros Hr Hf. rewrite Hr, Hf in Hn. done. }
    split; [intros Hne; done|]. intros _. done.
  - split; [lia|]. split.
    { intros Hr Hf. rewrite Hr, Hf in Hn. done. }
    split; intros Hne; done.
Qed.


Lemma iteration_keeps_flag_set k s s' t :
  iteration remove_escape_codes k s = Some (s', t) ->
  term_needs_update s = true -> term_needs_update s' = true.
Proof.
  intros H Hs.
  destruct (iteration_inv _ _ _ _ _ H) as (io & Hio & _).
  destruct (io_step_cases _ _ _ _ _ Hio)
    as [(_ & Hf & _)|[(_ & _ & _ & Hw & _)|(_ & _ & -> & _)]]; simpl in *.
  - congruence.
  - destruct (write_cycle_inv _ _ _ Hw) as (_ & _ & -> & _). done.
  - done.
Qed.

(** Along any row of iterations no iteration clears the flag. *)
Lemma controller_clears_none ks s n :
  controller_clears remove_escape_codes ks s = Some n -> n = 0%nat.
Proof.
  revert s n. induction ks as [|k ks IH]; intros s n; simpl.
  - by intros [= <-].
  - destruct (iteration remove_escape_codes k s) as [[s' t]|] eqn:Ei; [|done].
    simpl. destruct (controller_clears remove_escape_codes ks s') as [m|] eqn:Ec; [|done].
    simpl. apply IH in Ec. subst m.
    destruct (term_needs_update s) eqn:Es; simpl; [|by intros [= <-]].
    rewrite (iteration_keeps_flag_set _ _ _ _ Ei Es). simpl. by intros [= <-].
Qed.

(** The invariant holds when the loop is entered... *)
Lemma echo_window_ok_entry s :
  cut_terminal s = None -> entered_command s = None -> tmp_length s = 0 ->
  echo_window_ok s.
Proof.
  intros Hc He Ht. split; [done| rewrite Ht; lia | rewrite He; done].
Qed.

Lemma echo_branch_length e buf flag buf' flag' :
  echo_branch remove_escape_codes e buf flag = Some (buf', flag') ->
  length buf' = length (remove_escape_codes buf).
Proof.
  unfold echo_branch.
  destruct (strlen_arr (remove_escape_codes buf)) as [len|]; [|done]. simpl.
  set (copySize := to_int _).
  destruct (Z.ltb_spec 0 (copySize - 2)); [|by intros [= <- _]].
  destruct (Z.leb_spec (Z.of_nat (strlen e) + copySize)
              (Z.of_nat (length (remove_escape_codes buf)))); [|done].
  destruct (store _ copySize NUL) as [b|] eqn:Es; [|done]. simpl.
  intros [= <- _]. apply store_length in Es. rewrite Es.
  unfold memcpy_to_start. rewrite length_app, length_take, !length_drop. lia.
Qed.

(** ... and every iteration keeps it, when the stripper works in place
    and the keyboard stages text that fits. *)
Lemma echo_window_ok_iteration k s s' t :
  (forall b, length (remove_escape_codes b) = length b) ->
  echo_window_ok s -> command_ok s ->
  iteration remove_escape_codes k s = Some (s', t) ->
  echo_window_ok s'.
Proof.
  intros Hstrip [Hcut Hrange Htext] [Hcr Hcf Hct] H.
  destruct (iteration_inv _ _ _ _ _ H) as (io & Hio & _).
  destruct (io_step_cases _ _ _ _ _ Hio)
    as [(_ & _ & Hr & _)|[(_ & _ & _ & Hw & _)|(_ & _ & -> & _)]];
    simpl in *.
  - unfold read_cycle in Hr. simpl in Hr.
    destruct (read_into_buffer _ _) as [buf|] eqn:Eb; [|done]. simpl in Hr.
    destruct (cut_echo_candidate _ _ _) as [cut|]; [|done]. simpl in Hr.
    destruct (publish _ _ _ _ _) as [[buf' flag']|] eqn:Ep; [|done].
    simpl in Hr. injection Hr as <- _.
    assert (Hl : length buf' = length (terminal_buffer s)).
    { apply read_into_buffer_length in Eb. unfold publish in Ep.
      destruct (genuine _ _); [by injection Ep as <- _|].
      destruct (entered_command s) as [e|]; [|by injection Ep as <- _].
      destruct cut as [c|]; [|by injection Ep as <- _].
      destruct (strcmp e c =? 0); [|by injection Ep as <- _].
      apply echo_branch_length in Ep. by rewrite Ep, Hstrip. }
    split; simpl.
    + done.
    + unfold BUFFER_SIZE in *. simpl. rewrite Hl. done.
    + intros e He. apply Htext. unfold free_entered_command in He.
      destruct (entered_command s) as [e0|]; [|done].
      destruct (0 <? strlen e0)%nat; done.
  - destruct (write_cycle_inv _ _ _ Hw) as (_ & Hb & _ & _ & _ & He & Ht & Hc).
    simpl in *. split.
    + by rewrite Hc.
    + unfold BUFFER_SIZE in *. rewrite Ht, Hb. lia.
    + intros e. rewrite He, Ht. intros [= <-]. split; [|done].
      rewrite length_take. lia.
  - split; done.
Qed.

(** An iteration is defined, whichever branch it takes, when the read
    (if any) is shorter than the buffer, the buffer size fits an [int],
    and the stripper works in place and keeps the buffer terminated. *)
Lemma iteration_defined k s data :
  (forall b, length (remove_escape_codes b) = length b) ->
  (forall b, (strlen b < length b)%nat ->
             (strlen (remove_escape_codes b) < length (remove_escape_codes b))%nat) ->
  echo_window_ok s -> command_ok s ->
  read_ret k = ReadOk data ->
  (length data < BUFFER_SIZE s)%nat ->
  Z.of_nat (BUFFER_SIZE s) < 2 ^ 31 ->
  exists s' t, iteration remove_escape_codes k s = Some (s', t).
Proof.
  intros Hlen Hterm Hok Hcmd Hread Hfit Hsize.
  assert (Hio : exists s' io,
             io_step remove_escape_codes k (set_sig_int_sent false s) = Some (s', io)).
  { unfold io_step.
    destruct (negb (Z.land (revents k) POLLIN =? 0) &&
              negb (term_needs_update (set_sig_int_sent false s))).
    - rewrite Hread.
      assert (Hok' : echo_window_ok (set_sig_int_sent false s))
        by (destruct Hok; split; done).
      destruct (read_cycle_branches remove_escape_codes _ data Hok' Hfit)
        as [Hgen Hecho]. cbv zeta in Hgen, Hecho.
      pose proof (genuine_iff _ data Hok') as Hiff. cbv zeta in Hiff.
      destruct (genuine _ _) eqn:Eg.
      + rewrite Hgen by (by apply Hiff). eauto.
      + destruct Hecho as (e & He & ->).
        { intros Ht. apply Hiff in Ht. done. }
        simpl in He. destruct (ew_text s Hok e He) as [Htmp Hnul].
        set (buf := data ++ NUL :: drop (S (length data)) (terminal_buffer s)).
        assert (Hbl : length buf = BUFFER_SIZE s).
        { unfold buf, BUFFER_SIZE in *. rewrite length_app. simpl.
          rewrite length_drop. lia. }
        assert (Hbt : (strlen buf < length buf)%nat).
        { pose proof (strlen_app_nul_le data
                        (drop (S (length data)) (terminal_buffer s))).
          fold buf in H. lia. }
        pose proof (ew_range s Hok) as Hr.
        destruct (echo_branch_spec remove_escape_codes e buf
                    (term_needs_update s)) as [Hbig Hsmall].
        * by apply Hterm.
        * rewrite Hlen, Hbl. done.
        * rewrite (strlen_nul_free e Hnul). lia.
        * simpl. fold buf.
          destruct (Z_lt_le_dec 2
                      (Z.of_nat (strlen (remove_escape_codes buf)) - Z.of_nat (strlen e)))
            as [Hgt|Hle].
          -- destruct (Hbig Hgt) as (buf' & -> & _). simpl. eauto.
          -- rewrite (Hsmall Hle). simpl. eauto.
    - destruct (negb (Z.land (revents k) POLLOUT =? 0) &&
                command_ready_to_send (set_sig_int_sent false s)); [|eauto].
      unfold write_cycle. simpl. destruct Hcmd as [[H0 H1] _ _].
      destruct (Z.leb_spec 0 (command_buffer_length s)); [|lia].
      destruct (Z.leb_spec (command_buffer_length s)
                  (Z.of_nat (length (command_buffer s)))); [|lia].
      simpl. eauto. }
  destruct Hio as (s' & io & Hio).
  unfold iteration. pose proof (interrupt_step_state k s) as Hs.
  destruct (interrupt_step k s) as [s1 t1]. simpl in Hs. subst s1.
  rewrite Hio. simpl. eauto.
Qed.

End WithStripper.

End Multiplex.

(** ** Console set-up and session start *)
Module Setup.
Import CInt Tty Session Console Props.

(** The loop is entered with the echo window in order. *)
Lemma tty_thread_start_ok arg f s ws s' :
  tty_thread_start arg f s = Loop ws s' -> echo_window_ok s'.
Proof.
  unfold tty_thread_start. destruct (forkpty_pid f =? 0); [done|].
  intros [= _ <-]. split; simpl; [done | lia | done].
Qed.

Lemma reopen_current_terminal_inv r w :
  exists ok t,
    reopen_current_terminal r w =
      (ok, mkConsole r (original_mode w) (original_kb_mode w) (kb_mode w) (vt_mode w), t).
Proof.
  unfold reopen_current_terminal, close_current_terminal, set_current_fd.
  destruct (current_fd w <? 0); simpl; destruct (r <? 0); eauto.
Qed.

Ltac split_answers :=
  repeat match goal with
         | |- context [?a =? 0] => destruct (Z.eqb_spec a 0); simpl
         | |- context [?a <? 0] => destruct (Z.ltb_spec a 0); simpl
         end.

(** The set-up succeeds exactly when [open], the four ioctls and
    [pthread_create] succeed. No answer of [forkpty] is among them: the
    fork happens later, in the thread. *)
Lemma prepare_true_iff k wd ht w :
  (ul_terminal_prepare_current_terminal k wd ht w).1.1 = true <->
  0 <= open_ret k /\ kdgkbmode_ret k = 0 /\ kdskbmode_ret k = 0 /\
  kdgetmode_ret k = 0 /\ kdsetmode_ret k = 0 /\ pthread_create_ret k = 0.
Proof.
  unfold ul_terminal_prepare_current_terminal.
  destruct (reopen_current_terminal_inv (open_ret k) w) as (ok & t & ->).
  unfold ioctl. simpl. split_answers; split; intros Hyp; try done; try lia.
Qed.

(** C3. With every call of the set-up answered with success and
    [forkpty] failing in the thread, [prepare] still returns true: the
    thread it has created takes [pid = -1] for the parent's side and
    enters the loop, with [tty_fd] never assigned. *)
Theorem C3_prepare_true_despite_fork_failure kb vt s :
  let '(ok, _, t) :=
    ul_terminal_prepare_current_terminal (mkAnswers 3 0 0 0 0 0) 256 512
      (initial_console kb vt) in
  ok = true /\
  thread_arg t = Some (mkDimen 256 512) /\
  exists ws s',
    tty_thread_start (mkDimen 256 512) ForkFailed s = Loop ws s' /\
    pid s' = -1 /\ tty_fd s' = tty_fd s.
Proof.
  simpl. split; [done|]. split; [done|]. eauto.
Qed.


(** C10. When the console is opened, the keyboard mode is read and
    switched off, and then the get-mode or the set-graphics ioctl fails,
    [prepare] returns false and leaves the keyboard mode off; the mode
    found at the start is only remembered in [original_kb_mode]. *)
Theorem C10_keyboard_left_off k wd ht w :
  0 <= open_ret k ->
  kdgkbmode_ret k = 0 ->
  kdskbmode_ret k = 0 ->
  kdgetmode_ret k <> 0 \/ kdsetmode_ret k <> 0 ->
  let '(ok, w', _) := ul_terminal_prepare_current_terminal k wd ht w in
  ok = false /\
  kb_mode w' = K_OFF /\
  original_kb_mode w' = kb_mode w.
Proof.
  intros Hopen Hg Hs Hfail.
  unfold ul_terminal_prepare_current_terminal.
  destruct (reopen_current_terminal_inv (open_ret k) w) as (ok & t & ->).
  unfold ioctl. simpl. rewrite Hg, Hs. simpl.
  destruct (Z.ltb_spec (open_ret k) 0); [lia|].
  destruct (Z.eqb_spec (kdgetmode_ret k) 0); simpl; [|done].
  destruct (Z.eqb_spec (kdsetmode_ret k) 0); simpl; [|done].
  lia.
Qed.

End Setup.

(** ** The stand-in stripper works in place *)
Module StripperFacts.
Import CStr CStrFacts ReadFacts Stripper.

Lemma strip_text_length in_sequence text :
  (length (strip_text in_sequence text) <= length text)%nat.
Proof.
  revert in_sequence. induction text as [|b text IH]; intros in_sequence; simpl.
  - done.
  - destruct in_sequence.
    + specialize (IH (negb (is_letter b))). lia.
    + destruct (Byte.eqb b ESC).
      * specialize (IH true). lia.
      * simpl. specialize (IH false). lia.
Qed.

Lemma remove_escape_codes_shape buf :
  (strlen buf < length buf)%nat ->
  remove_escape_codes buf =
    strip_text false (cstring buf) ++
    NUL :: drop (S (length (strip_text false (cstring buf)))) buf.
Proof.
  intros Hterm. unfold remove_escape_codes, memcpy_to_start.
  destruct (decide (strlen buf < length buf)%nat); [|done].
  rewrite take_ge by done. rewrite <- app_assoc. simpl.
  rewrite length_app. simpl. by rewrite Nat.add_1_r.
Qed.

Lemma remove_escape_codes_length buf :
  length (remove_escape_codes buf) = length buf.
Proof.
  destruct (decide (strlen buf < length buf)%nat) as [Hterm|Hnot].
  - rewrite remove_escape_codes_shape by done.
    pose proof (strip_text_length false (cstring buf)) as Hle.
    fold (strlen buf) in Hle.
    rewrite length_app. simpl. rewrite length_drop. lia.
  - unfold remove_escape_codes. destruct (decide _); done.
Qed.

Lemma remove_escape_codes_terminated buf :
  (strlen buf < length buf)%nat ->
  (strlen (remove_escape_codes buf) < length (remove_escape_codes buf))%nat.
Proof.
  intros Hterm. rewrite remove_escape_codes_length.
  rewrite remove_escape_codes_shape by done.
  pose proof (strip_text_length false (cstring buf)) as Hle.
  fold (strlen buf) in Hle.
  pose proof (strlen_app_nul_le (strip_text false (cstring buf))
                (drop (S (length (strip_text false (cstring buf)))) buf)).
  lia.
Qed.

End StripperFacts.

(** ** The theorems at concrete sessions *)
Module Instances.
Import CStr CInt Tty Session Console Props Scenario.
Import CStrFacts EchoSuppression Multiplex Setup.

Ltac no_nul :=
  repeat (apply not_elem_of_cons; split; [discriminate|]); apply not_elem_of_nil.

Lemma sent_ls_ok : echo_window_ok (sent "ls").
Proof.
  split.
  - reflexivity.
  - vm_compute. split; discriminate.
  - intros e He. vm_compute in He. injection He as <-. split; [reflexivity|no_nul].
Qed.


Lemma C2_witness :
  exists s',
    read_cycle strip (ReadOk (of_string "lsabc")) (sent "ls") = Some (s', [EvRead 0 16]) /\
    entered_command s' = None /\
    ((2 + 2 < length (cstring (strip (buffer_with "lsabc"))))%nat ->
       cstring (terminal_buffer s') = drop 2 (cstring (strip (buffer_with "lsabc"))) /\
       term_needs_update s' = true) /\
    ((length (cstring (strip (buffer_with "lsabc"))) <= 2 + 2)%nat ->
       terminal_buffer s' = strip (buffer_with "lsabc") /\ term_needs_update s' = false).
Proof.
  apply (C2_echo_remainder strip (sent "ls") (of_string "lsabc") (of_string "ls")
           (buffer_with "lsabc")).
  - exact sent_ls_ok.
  - vm_compute. lia.
  - vm_compute. reflexivity.
  - reflexivity.
  - reflexivity.
  - discriminate.
  - reflexivity.
  - reflexivity.
  - reflexivity.
  - vm_compute. lia.
Defined.

Lemma C9_witness :
  exists buf' flag',
    echo_branch strip (of_string "ls") (buffer_with "lsabc") false = Some (buf', flag') /\
    (flag' = true <->
       2 < Z.of_nat (strlen (strip (buffer_with "lsabc"))) - Z.of_nat (strlen (of_string "ls"))) /\
    (2 < Z.of_nat (strlen (strip (buffer_with "lsabc"))) - Z.of_nat (strlen (of_string "ls")) ->
       cstring buf' = drop (strlen (of_string "ls")) (cstring (strip (buffer_with "lsabc")))) /\
    (Z.of_nat (strlen (strip (buffer_with "lsabc"))) - Z.of_nat (strlen (of_string "ls")) = 1 \/
     Z.of_nat (strlen (strip (buffer_with "lsabc"))) - Z.of_nat (strlen (of_string "ls")) = 2 ->
       flag' = false /\ buf' = strip (buffer_with "lsabc")).
Proof.
  apply (C9_echo_threshold strip (of_string "ls") (buffer_with "lsabc")).
  - vm_compute. lia.
  - vm_compute. reflexivity.
  - vm_compute. reflexivity.
Defined.


Lemma C4_witness :
  let s := set_sig_int_sent true idle in
  let after := outcome (iteration strip (incoming "hi") s) in
  exists io,
    after.2 = [EvLock; EvPoll (tty_fd s) 10; EvUsleep 100] ++
              run_kill_child_pids (pid s) (pgrep (incoming "hi")) ++
              [EvKill (pid s) SIGINT] ++ io ++ [EvUnlock] /\
    (forall children, pgrep (incoming "hi") = Some children ->
       run_kill_child_pids (pid s) (pgrep (incoming "hi")) =
         EvPopen (of_string "pgrep -P " ++ sprintf_d (pid s)) ::
         map (fun child => EvKill child SIGINT) children ++ [EvPclose]) /\
    List.filter is_io
      ([EvLock; EvPoll (tty_fd s) 10; EvUsleep 100] ++
       run_kill_child_pids (pid s) (pgrep (incoming "hi")) ++
       [EvKill (pid s) SIGINT]) = [] /\
    List.filter is_io after.2 = io /\
    io_step strip (incoming "hi") (set_sig_int_sent false s) = Some (after.1, io) /\
    sig_int_sent after.1 = false.
Proof.
  intros s after.
  apply (C4_interrupt_before_io strip (incoming "hi") s after.1 after.2).
  - reflexivity.
  - vm_compute. reflexivity.
Defined.

Lemma C5_witness :
  let s := staged "ls" in
  let after := outcome (iteration strip (incoming "hi") s) in
  (length (List.filter is_io after.2) <= 1)%nat /\
  (readable (incoming "hi") = true -> term_needs_update s = false ->
     List.filter is_io after.2 = [EvRead (tty_fd s) (BUFFER_SIZE s)]) /\
  (List.filter is_read after.2 <> [] ->
     term_needs_update s = false /\ readable (incoming "hi") = true /\
     List.filter is_write after.2 = []) /\
  (List.filter is_write after.2 <> [] ->
     readable (incoming "hi") && negb (term_needs_update s) = false /\
     writable (incoming "hi") = true /\ command_ready_to_send s = true /\
     List.filter is_read after.2 = []).
Proof.
  intros s after.
  apply (C5_one_branch_per_iteration strip (incoming "hi") s after.1 after.2).
  vm_compute. reflexivity.
Defined.



Lemma C10_witness :
  let '(ok, w', _) :=
    ul_terminal_prepare_current_terminal getmode_fails 256 512 text_console in
  ok = false /\ kb_mode w' = K_OFF /\ original_kb_mode w' = kb_mode text_console.
Proof.
  apply (C10_keyboard_left_off getmode_fails 256 512 text_console).
  - vm_compute. discriminate.
  - reflexivity.
  - reflexivity.
  - left. vm_compute. discriminate.
Defined.

(** C2, as worded, fails: after "ls" was sent and "lsab" read, the two
    characters "ab" remain behind the echo, yet the flag stays clear. *)
Lemma C2_counterexample : ~ echo_remainder_as_worded.
Proof.
  intros H.
  destruct (H strip (sent "ls") (of_string "lsab") (of_string "ls") (buffer_with "lsab"))
    as (s' & t & Hcycle & _ & Hflag).
  - exact sent_ls_ok.
  - vm_compute. lia.
  - vm_compute. reflexivity.
  - reflexivity.
  - reflexivity.
  - discriminate.
  - reflexivity.
  - reflexivity.
  - reflexivity.
  - vm_compute. lia.
  - vm_compute in Hcycle. injection Hcycle as <- _.
    assert (Hset : term_needs_update
              (outcome (read_cycle strip (ReadOk (of_string "lsab")) (sent "ls"))).1 = true).
    { apply Hflag. vm_compute. discriminate. }
    vm_compute in Hset. discriminate.
Qed.



End Instances.

(** ** The console over its life: set-up, reset, set-up again *)
Module Lifecycle.
Import CInt Session Console Reset.

Lemma reopen_current_terminal_trace r w :
  reopen_current_terminal r w =
    (negb (r <? 0),
     mkConsole r (original_mode w) (original_kb_mode w) (kb_mode w) (vt_mode w),
     (if current_fd w <? 0 then [] else [EvClose (current_fd w)]) ++
     EvOpen "/dev/tty0" ::
     (if r <? 0 then [EvLog "Could not open /dev/tty0"] else [])).
Proof.
  unfold reopen_current_terminal, close_current_terminal, set_current_fd.
  destruct (current_fd w <? 0); simpl; destruct (r <? 0); reflexivity.
Qed.

Ltac split_answers :=
  repeat match goal with
         | |- context [?a =? 0] => destruct (Z.eqb_spec a 0); simpl
         | |- context [?a <? 0] => destruct (Z.ltb_spec a 0); simpl
         end.

(** X1. The set-up returns true exactly when [open], the four ioctls and
    [pthread_create] all succeed. *)
Theorem X1_prepare_result k wd ht w :
  (ul_terminal_prepare_current_terminal k wd ht w).1.1 = true <->
  0 <= open_ret k /\ kdgkbmode_ret k = 0 /\ kdskbmode_ret k = 0 /\
  kdgetmode_ret k = 0 /\ kdsetmode_ret k = 0 /\ pthread_create_ret k = 0.
Proof. apply Setup.prepare_true_iff. Qed.


(** X3. A set-up that returns false has created no thread. When [open]
    failed, no ioctl was issued and the console's modes are as before; when
    [open] succeeded, the descriptor is left open. *)
Theorem X3_prepare_failure k wd ht w w' t :
  ul_terminal_prepare_current_terminal k wd ht w = (false, w', t) ->
  thread_arg t = None /\
  (open_ret k < 0 ->
     List.filter is_ioctl t = [] /\ kb_mode w' = kb_mode w /\ vt_mode w' = vt_mode w) /\
  (0 <= open_ret k ->
     current_fd w' = open_ret k /\
     List.filter is_close t =
       if current_fd w <? 0 then [] else [EvClose (current_fd w)]).
Proof.
  unfold ul_terminal_prepare_current_terminal.
  rewrite reopen_current_terminal_trace. unfold ioctl. simpl.
  destruct (Z.ltb_spec (current_fd w) 0); simpl;
  split_answers; intros [= <- <-]; simpl;
    (split; [unfold thread_arg; rewrite ?last_snoc; reflexivity|]);
    (split; [intros ?; try lia; repeat split; reflexivity
            |intros ?; try lia; split; reflexivity]).
Qed.

Lemma prepare_success_console k wd ht w w' t :
  ul_terminal_prepare_current_terminal k wd ht w = (true, w', t) ->
  0 <= open_ret k /\
  w' = mkConsole (open_ret k) (vt_mode w) (kb_mode w) K_OFF KD_GRAPHICS /\
  List.filter is_close t = if current_fd w <? 0 then [] else [EvClose (current_fd w)].
Proof.
  unfold ul_terminal_prepare_current_terminal.
  rewrite reopen_current_terminal_trace. unfold ioctl. simpl.
  destruct (Z.ltb_spec (current_fd w) 0); simpl;
  split_answers; intros [= <- <-]; simpl; repeat split; try lia.
Qed.

Lemma reset_after_open r w :
  0 <= current_fd w ->
  rs_kdsetmode_ret r = 0 -> rs_kdskbmode_ret r = 0 ->
  ul_terminal_reset_current_terminal r w =
    (mkConsole (-1) (original_mode w) (original_kb_mode w)
       (original_kb_mode w) (original_mode w),
     [EvIoctl (current_fd w) (KDSETMODE (original_mode w));
      EvIoctl (current_fd w) (KDSKBMODE (original_kb_mode w));
      EvClose (current_fd w)]).
Proof.
  intros Hfd Hs Hk. unfold ul_terminal_reset_current_terminal.
  destruct (Z.ltb_spec (current_fd w) 0); [lia|].
  rewrite Hs, Hk. unfold ioctl, close_current_terminal. simpl.
  destruct (Z.ltb_spec (current_fd w) 0); [lia|]. reflexivity.
Qed.

(** X4. A successful set-up followed by a reset whose ioctls succeed puts
    the console back: the display mode and the keyboard mode are the ones
    found at the start, in this order (mode first, keyboard second), and
    the descriptor is closed. *)
Theorem X4_prepare_then_reset k wd ht w w1 t1 r w2 t2 :
  ul_terminal_prepare_current_terminal k wd ht w = (true, w1, t1) ->
  rs_kdsetmode_ret r = 0 -> rs_kdskbmode_ret r = 0 ->
  ul_terminal_reset_current_terminal r w1 = (w2, t2) ->
  kb_mode w2 = kb_mode w /\ vt_mode w2 = vt_mode w /\ current_fd w2 = -1 /\
  t2 = [EvIoctl (open_ret k) (KDSETMODE (vt_mode w));
        EvIoctl (open_ret k) (KDSKBMODE (kb_mode w));
        EvClose (open_ret k)].
Proof.
  intros Hp Hs Hk Hr.
  destruct (prepare_success_console _ _ _ _ _ _ Hp) as (Hopen & -> & _).
  rewrite reset_after_open in Hr by done. injection Hr as <- <-. done.
Qed.

(** X5. Whatever the ioctls answer, a reset leaves no descriptor open,
    and a reset that follows changes nothing and calls nothing: it only
    logs that there is nothing to reset. *)
Theorem X5_reset_closes r w :
  let '(w1, _) := ul_terminal_reset_current_terminal r w in
  current_fd w1 < 0 /\
  forall r', ul_terminal_reset_current_terminal r' w1 =
             (w1, [EvLog "Could not reset current terminal"]).
Proof.
  unfold ul_terminal_reset_current_terminal at 1.
  destruct (Z.ltb_spec (current_fd w) 0) as [Hneg|Hpos].
  - split; [done|]. intros r'. unfold ul_terminal_reset_current_terminal.
    destruct (Z.ltb_spec (current_fd w) 0); [done|lia].
  - unfold ioctl, close_current_terminal.
    destruct (rs_kdsetmode_ret r =? 0), (rs_kdskbmode_ret r =? 0); simpl;
      destruct (Z.ltb_spec (current_fd w) 0); try lia; simpl;
      (split; [lia|]); intros r'; reflexivity.
Qed.

(** X6. A second successful set-up without a reset in between closes the
    first descriptor, but it remembers the modes the first set-up had put
    in place: the reset that follows leaves the keyboard off and the
    console in graphics mode. *)
Theorem X6_prepare_twice k1 k2 wd ht w w1 t1 w2 t2 r w3 t3 :
  ul_terminal_prepare_current_terminal k1 wd ht w = (true, w1, t1) ->
  ul_terminal_prepare_current_terminal k2 wd ht w1 = (true, w2, t2) ->
  rs_kdsetmode_ret r = 0 -> rs_kdskbmode_ret r = 0 ->
  ul_terminal_reset_current_terminal r w2 = (w3, t3) ->
  List.filter is_close t2 = [EvClose (open_ret k1)] /\
  kb_mode w3 = K_OFF /\ vt_mode w3 = KD_GRAPHICS.
Proof.
  intros H1 H2 Hs Hk Hr.
  destruct (prepare_success_console _ _ _ _ _ _ H1) as (Ho1 & -> & _).
  destruct (prepare_success_console _ _ _ _ _ _ H2) as (Ho2 & -> & Hc).
  simpl in Hc. destruct (Z.ltb_spec (open_ret k1) 0); [lia|].
  rewrite reset_after_open in Hr by done. injection Hr as <- <-. done.
Qed.


End Lifecycle.

(** ** Geometry *)
Module Geometry.
Import CInt Session.

(** X8. For a pixel size that is not negative and gives fewer than 65536
    columns and rows, the window size is the pixel size divided by the 8 by
    16 cell, rounded down: the cells never cover more than the pixels
    given, and less than one cell is left over in each direction. The pixel
    fields of the window size are 0. *)
Theorem X8_winsize_in_range wd ht :
  0 <= wd < 8 * 2 ^ 16 ->
  0 <= ht < 16 * 2 ^ 16 ->
  let ws := tty_winsize (mkDimen wd ht) in
  ws_col ws = wd / 8 /\ ws_row ws = ht / 16 /\
  8 * ws_col ws <= wd < 8 * ws_col ws + 8 /\
  16 * ws_row ws <= ht < 16 * ws_row ws + 16 /\
  ws_xpixel ws = 0 /\ ws_ypixel ws = 0.
Proof.
  intros Hw Hh. unfold tty_winsize, to_ushort, idiv. simpl.
  rewrite !Z.quot_div_nonneg by lia.
  assert (0 <= wd / 8 < 2 ^ 16) by (split; [apply Z.div_pos; lia | apply Z.div_lt_upper_bound; lia]).
  assert (0 <= ht / 16 < 2 ^ 16) by (split; [apply Z.div_pos; lia | apply Z.div_lt_upper_bound; lia]).
  rewrite !Z.mod_small by lia.
  pose proof (Z.div_mod wd 8 ltac:(lia)). pose proof (Z.mod_pos_bound wd 8 ltac:(lia)).
  pose proof (Z.div_mod ht 16 ltac:(lia)). pose proof (Z.mod_pos_bound ht 16 ltac:(lia)).
  repeat split; lia.
Qed.

End Geometry.

(** ** More on the loop *)
Module LoopMore.
Import CStr CInt Tty Props Output Runs.
Import CStrFacts CIntFacts ReadFacts EchoFacts LoopFacts.

Lemma cstring_app_nul_any p r : cstring (p ++ NUL :: r) = cstring p.
Proof.
  induction p as [|b p IH]; simpl; [done|].
  destruct (is_nul b); [done | by f_equal].
Qed.

(** X9. Lines 166-167 stay inside [terminal_buffer] exactly when the read
    succeeds and brings fewer bytes than the buffer holds: a failed read
    stores the terminator in front of the array, a read that fills the
    buffer stores it behind. *)
Theorem X9_read_bounds r buf :
  read_into_buffer r buf = None <->
  r = ReadErr \/ exists data, r = ReadOk data /\ (length buf <= length data)%nat.
Proof.
  destruct r as [|data].
  - split; [auto|]. intros _. reflexivity.
  - split.
    + intros H. right. exists data. split; [done|].
      destruct (le_lt_dec (length buf) (length data)); [done|].
      rewrite read_into_buffer_ok in H by done. done.
    + intros [?|(d & [= <-] & Hle)]; [done|].
      unfold read_into_buffer, store, memcpy_to_start.
      rewrite length_app, length_take, length_drop, !length_take.
      destruct (Z.ltb_spec (Z.of_nat (length buf `min` length data))
                  (Z.of_nat
                     ((length buf `min` length data) `min` (length buf `min` length data) +
                      (length buf - length buf `min` length data)))); [lia|].
      by rewrite andb_false_r.
Qed.

Section WithStripper.
Variable remove_escape_codes : list byte -> list byte.

(** X10. An iteration stays inside the two buffers, whichever branch it
    takes, when the echo window is in order, the staged command fits, the
    read brings fewer bytes than the output buffer holds, the buffer size
    fits an [int], and the stripper works in place and leaves the buffer
    terminated. *)
Theorem X10_iteration_in_bounds k s data :
  (forall b, length (remove_escape_codes b) = length b) ->
  (forall b, (strlen b < length b)%nat ->
             (strlen (remove_escape_codes b) < length (remove_escape_codes b))%nat) ->
  echo_window_ok s -> command_ok s ->
  read_ret k = ReadOk data ->
  (length data < BUFFER_SIZE s)%nat ->
  Z.of_nat (BUFFER_SIZE s) < 2 ^ 31 ->
  exists s' t, iteration remove_escape_codes k s = Some (s', t).
Proof. apply Multiplex.iteration_defined. Qed.

(** X11. Every iteration keeps the echo window in order: [cut_terminal]
    is NULL again, [tmp_length] fits the output buffer, and a command that
    is held is [tmp_length] characters of text. *)
Theorem X11_echo_window_invariant k s s' t :
  (forall b, length (remove_escape_codes b) = length b) ->
  echo_window_ok s -> command_ok s ->
  iteration remove_escape_codes k s = Some (s', t) ->
  echo_window_ok s'.
Proof. apply Multiplex.echo_window_ok_iteration. Qed.

(** X12. An iteration that sends writes the whole command buffer, padding
    included, once; afterwards the buffer is all NUL, the ready flag, the
    length and the cursor are reset, the first [command_buffer_length]
    bytes are held for the echo match, and an iteration that follows sends
    nothing. *)
Theorem X12_send_once k s s1 t1 :
  iteration remove_escape_codes k s = Some (s1, t1) ->
  List.filter is_write t1 <> [] ->
  List.filter is_write t1 = [EvWrite (tty_fd s) (command_buffer s)] /\
  command_buffer s1 = replicate (length (command_buffer s)) NUL /\
  command_ready_to_send s1 = false /\
  command_buffer_length s1 = 0 /\ command_buffer_pos s1 = 0 /\
  entered_command s1 =
    Some (take (Z.to_nat (command_buffer_length s)) (command_buffer s)) /\
  forall k2 s2 t2,
    iteration remove_escape_codes k2 s1 = Some (s2, t2) ->
    List.filter is_write t2 = [].
Proof.
  intros H Hw.
  destruct (iteration_io _ _ _ _ _ H) as (io & Hio & _ & _ & Hfw).
  rewrite Hfw in Hw |- *.
  destruct (io_step_cases _ _ _ _ _ Hio)
    as [(_ & _ & _ & ->)|[(_ & _ & _ & Hwc & ->)|(_ & _ & _ & ->)]];
    [done| |done].
  unfold write_cycle in Hwc. simpl in Hwc.
  destruct (_ && _); [|done]. injection Hwc as <-.
  simpl. repeat split.
  intros k2 s2 t2 H2.
  destruct (iteration_io _ _ _ _ _ H2) as (io2 & Hio2 & _ & _ & ->).
  destruct (io_step_cases _ _ _ _ _ Hio2)
    as [(_ & _ & _ & ->)|[(_ & _ & Hc & _)|(_ & _ & _ & ->)]]; done.
Qed.

(** X13. An echo that comes alone is swallowed. With a stripper that
    works in place and never makes the text longer, a read that brings the
    held command followed by at most two more bytes leaves the flag clear
    and frees the echo window. *)
Theorem X13_bare_echo_suppressed s e tail :
  (forall b, (strlen b < length b)%nat ->
             (strlen (remove_escape_codes b) < length (remove_escape_codes b))%nat) ->
  (forall b, length (remove_escape_codes b) = length b) ->
  (forall b, (strlen (remove_escape_codes b) <= strlen b)%nat) ->
  echo_window_ok s ->
  Z.of_nat (BUFFER_SIZE s) < 2 ^ 31 ->
  term_needs_update s = false ->
  entered_command s = Some e ->
  e <> [] ->
  (length tail <= 2)%nat ->
  (length (e ++ tail) < BUFFER_SIZE s)%nat ->
  exists s',
    read_cycle remove_escape_codes (ReadOk (e ++ tail)) s =
      Some (s', [EvRead (tty_fd s) (BUFFER_SIZE s)]) /\
    term_needs_update s' = false /\
    entered_command s' = None /\ cut_terminal s' = None.
Proof.
  intros Hterm Hlen Hshort Hok Hsize Hflag He Hne Htail Hfit.
  destruct (read_cycle_branches remove_escape_codes s (e ++ tail) Hok Hfit)
    as [_ Hecho]. cbv zeta in Hecho.
  destruct (ew_text s Hok e He) as [Htmp Hnul].
  destruct Hecho as (e' & He' & ->).
  { rewrite He. simpl. rewrite take_app_length. intros [?|?]; done. }
  assert (e' = e) as -> by congruence.
  set (buf := (e ++ tail) ++ NUL :: drop (S (length (e ++ tail))) (terminal_buffer s)).
  assert (Hbl : length buf = BUFFER_SIZE s).
  { unfold buf, BUFFER_SIZE in *. rewrite length_app. simpl.
    rewrite length_drop. lia. }
  assert (Hbs : (strlen buf <= length (e ++ tail))%nat)
    by apply strlen_app_nul_le.
  assert (Hes : strlen e = length e) by by apply strlen_nul_free.
  pose proof (ew_range s Hok) as Hr.
  destruct (echo_branch_spec remove_escape_codes e buf (term_needs_update s))
    as [_ Hsmall].
  - apply Hterm. lia.
  - rewrite Hlen, Hbl. done.
  - rewrite Hes. lia.
  - rewrite Hsmall.
    + simpl. eexists. split; [reflexivity|]. simpl.
      rewrite He. simpl. rewrite Hes.
      destruct e; [done|]. done.
    + pose proof (Hshort buf). rewrite length_app in Hbs. lia.
Qed.

(** X14. A read shorter than the held command is taken for genuine
    output: its bytes are in the buffer, the flag is set, and the echo
    window is given up, so what follows later of the echo is shown as
    well. *)
Theorem X14_short_read_is_genuine s e data :
  echo_window_ok s ->
  entered_command s = Some e ->
  (length data < length e)%nat ->
  (length data < BUFFER_SIZE s)%nat ->
  exists s',
    read_cycle remove_escape_codes (ReadOk data) s =
      Some (s', [EvRead (tty_fd s) (BUFFER_SIZE s)]) /\
    take (length data) (terminal_buffer s') = data /\
    term_needs_update s' = true /\
    entered_command s' = None /\
    forall cut, genuine (entered_command s') cut = true.
Proof.
  intros Hok He Hshort Hfit.
  destruct (read_cycle_branches remove_escape_codes s data Hok Hfit)
    as [Hgen _]. cbv zeta in Hgen.
  destruct (ew_text s Hok e He) as [Htmp Hnul].
  rewrite Hgen.
  - eexists. split; [reflexivity|]. simpl.
    split; [by rewrite take_app_length|]. split; [done|].
    rewrite He. simpl. rewrite (strlen_nul_free e Hnul).
    destruct (Nat.ltb_spec 0 (length e)); [done|lia].
  - rewrite He. simpl. right. intros Heq.
    apply (f_equal length) in Heq. rewrite length_take in Heq. lia.
Qed.

End WithStripper.

(** X15. Genuine output is passed on as it came: whatever the stripper
    is, the text the display reads is the data up to its first NUL (all of
    it when it has none), escape sequences included, and the flag is
    set. *)
Theorem X15_genuine_output_raw strip1 strip2 s data :
  echo_window_ok s ->
  treated_as_genuine (entered_command s) data ->
  (length data < BUFFER_SIZE s)%nat ->
  exists s',
    read_cycle strip1 (ReadOk data) s = Some (s', [EvRead (tty_fd s) (BUFFER_SIZE s)]) /\
    read_cycle strip2 (ReadOk data) s = Some (s', [EvRead (tty_fd s) (BUFFER_SIZE s)]) /\
    displayed_text s' = cstring data /\
    (NUL ∉ data -> displayed_text s' = data) /\
    term_needs_update s' = true.
Proof.
  intros Hok Hgen Hfit.
  destruct (read_cycle_branches strip1 s data Hok Hfit) as [H1 _].
  destruct (read_cycle_branches strip2 s data Hok Hfit) as [H2 _].
  cbv zeta in H1, H2. rewrite (H1 Hgen), (H2 Hgen).
  eexists. split; [reflexivity|]. split; [reflexivity|].
  unfold displayed_text, ul_terminal_update_interpret_buffer. simpl.
  rewrite cstring_app_nul_any.
  split; [done|]. split; [|done]. intros Hn. by apply cstring_id.
Qed.

End LoopMore.

(** ** Runs, frames and signals *)
Module LoopFrames.
Import CStr CInt Tty Session Props Output Runs.
Import CStrFacts CIntFacts ReadFacts EchoFacts LoopFacts.

Lemma filter_kill_map numbers :
  List.filter is_kill (map (fun child => EvKill child SIGINT) numbers) =
  map (fun child => EvKill child SIGINT) numbers.
Proof. induction numbers as [|c l IH]; simpl; [done | by f_equal]. Qed.

Lemma filter_popen_map numbers :
  List.filter is_popen (map (fun child => EvKill child SIGINT) numbers) = [].
Proof. induction numbers as [|c l IH]; simpl; done. Qed.

Section WithStripper.
Variable remove_escape_codes : list byte -> list byte.

Lemma iteration_flag_set_frame k s s' t :
  iteration remove_escape_codes k s = Some (s', t) ->
  term_needs_update s = true ->
  term_needs_update s' = true /\
  terminal_buffer s' = terminal_buffer s /\
  List.filter is_read t = [].
Proof.
  intros H Hs.
  destruct (iteration_io _ _ _ _ _ H) as (io & Hio & _ & -> & _).
  destruct (io_step_cases _ _ _ _ _ Hio)
    as [(_ & Hf & _)|[(_ & _ & _ & Hw & ->)|(_ & _ & -> & ->)]]; simpl in *.
  - congruence.
  - destruct (write_cycle_inv _ _ _ Hw) as (_ & Hb & Hfl & _). simpl in *.
    rewrite Hfl, Hb. done.
  - done.
Qed.

(** X16. Output that has not been consumed is never overwritten: from a
    state with the flag set, any number of iterations in a row leave the
    output buffer as it is, leave the flag set, and read nothing. *)
Theorem X16_no_overwrite ks s s' t :
  term_needs_update s = true ->
  run remove_escape_codes ks s = Some (s', t) ->
  terminal_buffer s' = terminal_buffer s /\
  term_needs_update s' = true /\
  List.filter is_read t = [].
Proof.
  revert s s' t. induction ks as [|k ks IH]; intros s s' t Hs; simpl.
  - intros [= <- <-]. done.
  - destruct (iteration remove_escape_codes k s) as [[s1 t1]|] eqn:Ei; [|done].
    simpl. destruct (run remove_escape_codes ks s1) as [[s2 t2]|] eqn:Er; [|done].
    simpl. intros [= <- <-].
    destruct (iteration_flag_set_frame _ _ _ _ Ei Hs) as (Hf1 & Hb1 & Hr1).
    destruct (IH _ _ _ Hf1 Er) as (Hb2 & Hf2 & Hr2).
    rewrite List.filter_app, Hr1, Hr2, Hb2, Hb1. done.
Qed.


(** X18. An iteration signals and queries only on request: without a
    pending interrupt its trace has no [kill] and no [popen]; with one, it
    has one [popen] of the [pgrep] command for the shell, one [kill] per
    number read, in the order read, and a last [kill] for the shell. *)
Theorem X18_signals_on_request k s s' t :
  iteration remove_escape_codes k s = Some (s', t) ->
  List.filter is_kill t =
    (if sig_int_sent s
     then map (fun child => EvKill child SIGINT) (default [] (pgrep k)) ++
          [EvKill (pid s) SIGINT]
     else []) /\
  List.filter is_popen t =
    (if sig_int_sent s
     then [EvPopen (of_string "pgrep -P " ++ sprintf_d (pid s))]
     else []).
Proof.
  intros H. destruct (iteration_inv _ _ _ _ _ H) as (io & Hio & ->).
  assert (Hk : List.filter is_kill io = [] /\ List.filter is_popen io = []).
  { destruct (io_step_cases _ _ _ _ _ Hio)
      as [(_ & _ & _ & ->)|[(_ & _ & _ & _ & ->)|(_ & _ & _ & ->)]]; done. }
  destruct Hk as [Hk Hp].
  unfold interrupt_step. destruct (sig_int_sent s); cbn [snd].
  - unfold run_kill_child_pids.
    destruct (pgrep k) as [numbers|]; simpl;
      rewrite ?List.filter_app, ?filter_kill_map, ?filter_popen_map, ?Hk, ?Hp;
      simpl; rewrite ?app_nil_r; done.
  - simpl. rewrite !List.filter_app, Hk, Hp. done.
Qed.

(** X19. When [forkpty] fails the thread enters the loop all the same,
    with [pid = -1]; an interrupt request then queries the children of
    process -1 and sends the interrupt signal to process id -1. *)
Theorem X19_interrupt_after_fork_failure arg s0 ws s k s' t :
  tty_thread_start arg ForkFailed s0 = Loop ws s ->
  sig_int_sent s = true ->
  iteration remove_escape_codes k s = Some (s', t) ->
  pid s = -1 /\
  List.filter is_popen t = [EvPopen (of_string "pgrep -P -1")] /\
  List.filter is_kill t =
    map (fun child => EvKill child SIGINT) (default [] (pgrep k)) ++
    [EvKill (-1) SIGINT].
Proof.
  intros Hst Hsig H.
  assert (Hpid : pid s = -1).
  { unfold tty_thread_start in Hst. simpl in Hst. by injection Hst as _ <-. }
  split; [done|].
  destruct (iteration_inv _ _ _ _ _ H) as (io & Hio & ->).
  assert (Hk : List.filter is_kill io = [] /\ List.filter is_popen io = []).
  { destruct (io_step_cases _ _ _ _ _ Hio)
      as [(_ & _ & _ & ->)|[(_ & _ & _ & _ & ->)|(_ & _ & _ & ->)]]; done. }
  destruct Hk as [Hk Hp].
  unfold interrupt_step. rewrite Hsig, Hpid. cbn [snd].
  unfold run_kill_child_pids.
  destruct (pgrep k) as [numbers|]; simpl;
    rewrite ?List.filter_app, ?filter_kill_map, ?filter_popen_map, ?Hk, ?Hp;
    simpl; rewrite ?app_nil_r; done.
Qed.

End WithStripper.

End LoopFrames.

(** ** Reading the answer of [pgrep] *)
Module PgrepFacts.
Import CStr Tty Pgrep.







Lemma sprintf_d_nonempty n : sprintf_d n <> [].
Proof.
  unfold sprintf_d. destruct (Z.to_int n) as [[]|[]]; done.
Qed.




Lemma fgets_chunk_parts room stream chunk rest :
  fgets_chunk room stream = (chunk, rest) ->
  chunk ++ rest = stream /\ (length chunk <= room)%nat /\
  ((0 < room)%nat -> stream <> [] -> (0 < length chunk)%nat).
Proof.
  revert stream chunk rest.
  induction room as [|room IH]; intros stream chunk rest; simpl.
  - intros [= <- <-]. split; [done|]. split; [done|]. lia.
  - destruct stream as [|b stream].
    { intros [= <- <-]. split; [done|]. split; [simpl; lia|]. done. }
    destruct (Byte.eqb b NEWLINE).
    + intros [= <- <-]. simpl. split; [done|]. split; lia.
    + destruct (fgets_chunk room stream) as [chunk' rest'] eqn:E.
      intros [= <- <-]. destruct (IH _ _ _ E) as (Happ & Hlen & _).
      simpl. rewrite Happ. split; [done|]. split; lia.
Qed.

(** One [fgets] hands over a piece of at most 19 characters off the front
    of the stream and leaves a shorter stream. *)
Lemma fgets_shorter stream chunk rest :
  fgets 20 stream = Some (chunk, rest) ->
  chunk ++ rest = stream /\ (0 < length chunk <= 19)%nat /\
  (length rest < length stream)%nat.
Proof.
  unfold fgets. destruct stream as [|b stream]; [done|].
  intros H.
  assert (E : fgets_chunk 19 (b :: stream) = (chunk, rest))
    by (injection H as H; exact H).
  clear H. apply fgets_chunk_parts in E as (Happ & Hlen & Hpos).
  specialize (Hpos ltac:(lia) ltac:(done)).
  split; [done|]. split; [lia|].
  rewrite <- Happ, length_app. lia.
Qed.

(** Fuel as large as the stream is enough: more changes nothing. *)
Lemma kill_numbers_fuel fuel1 fuel2 stream :
  (length stream <= fuel1)%nat -> (length stream <= fuel2)%nat ->
  kill_numbers fuel1 stream = kill_numbers fuel2 stream.
Proof.
  revert fuel2 stream. induction fuel1 as [|fuel1 IH]; intros fuel2 stream H1 H2.
  - destruct stream; [|simpl in H1; lia]. destruct fuel2; reflexivity.
  - destruct fuel2 as [|fuel2].
    + destruct stream; [|simpl in H2; lia]. reflexivity.
    + simpl. destruct (fgets 20 stream) as [[chunk rest]|] eqn:E; [|done].
      destruct (fgets_shorter _ _ _ E) as (_ & _ & Hlt).
      f_equal. apply IH; lia.
Qed.





End PgrepFacts.

(** ** The stand-in stripper never lengthens the text *)
Module StripperMore.
Import CStr CStrFacts ReadFacts Stripper StripperFacts.

Lemma remove_escape_codes_shorter buf :
  (strlen (remove_escape_codes buf) <= strlen buf)%nat.
Proof.
  destruct (decide (strlen buf < length buf)%nat) as [Hterm|Hnot].
  - rewrite remove_escape_codes_shape by done.
    pose proof (strip_text_length false (cstring buf)) as Hle.
    fold (strlen buf) in Hle.
    pose proof (strlen_app_nul_le (strip_text false (cstring buf))
                  (drop (S (length (strip_text false (cstring buf)))) buf)).
    lia.
  - unfold remove_escape_codes. destruct (decide _); done.
Qed.

End StripperMore.

(** ** Two more edges *)
Module Edges.
Import CStr CInt Tty Session Console Reset Props.
Import CStrFacts ReadFacts.

(** X21. The copy of lines 170-172 is made in every read cycle in which
    [tmp_length] is not 0, whether or not a command is held. So once a
    command longer than the output buffer has been sent, no read cycle
    stays inside [terminal_buffer], whatever is read and whatever the
    stripper is. *)
Theorem X21_long_command_breaks_reads strip r s :
  Z.of_nat (BUFFER_SIZE s) < tmp_length s ->
  read_cycle strip r s = None.
Proof.
  intros Hlong. unfold read_cycle.
  destruct (read_into_buffer r (terminal_buffer s)) as [buf|] eqn:Eb; [|done].
  simpl. apply read_into_buffer_length in Eb.
  unfold cut_echo_candidate, BUFFER_SIZE in *.
  destruct (Z.eqb_spec (tmp_length s) 0); [lia|].
  destruct (Z.leb_spec (tmp_length s) (Z.of_nat (length buf))); [lia|].
  by rewrite andb_false_r.
Qed.

(** X22. Unlike the set-up, the reset does not stop at a failure: when
    the ioctl that restores the display mode fails, the failure is logged,
    the keyboard mode is restored all the same and the descriptor is
    closed; the display mode stays as it was. *)
Theorem X22_reset_goes_on r w :
  0 <= current_fd w ->
  rs_kdsetmode_ret r <> 0 ->
  rs_kdskbmode_ret r = 0 ->
  ul_terminal_reset_current_terminal r w =
    (mkConsole (-1) (original_mode w) (original_kb_mode w)
       (original_kb_mode w) (vt_mode w),
     [EvIoctl (current_fd w) (KDSETMODE (original_mode w));
      EvLog "Could not reset terminal mode";
      EvIoctl (current_fd w) (KDSKBMODE (original_kb_mode w));
      EvClose (current_fd w)]).
Proof.
  intros Hfd Hs Hk. unfold ul_terminal_reset_current_terminal.
  destruct (Z.ltb_spec (current_fd w) 0); [lia|].
  rewrite Hk. unfold ioctl, close_current_terminal.
  destruct (Z.eqb_spec (rs_kdsetmode_ret r) 0); [done|]. simpl.
  destruct (Z.ltb_spec (current_fd w) 0); [lia|]. reflexivity.
Qed.

End Edges.

(** ** The further theorems at concrete sessions *)
Module MoreInstances.
Import CStr CInt Tty Session Console Reset Props Output Runs Pgrep Scenario Cases.
Import Lifecycle Geometry LoopMore LoopFrames PgrepFacts Edges.

Lemma idle_ok : echo_window_ok idle.
Proof. split; [reflexivity | vm_compute; split; discriminate | done]. Qed.

Lemma staged_ls_ok : echo_window_ok (staged "ls").
Proof. split; [reflexivity | vm_compute; split; discriminate | done]. Qed.

Lemma staged_ls_command_ok : command_ok (staged "ls").
Proof.
  split.
  - vm_compute. split; discriminate.
  - vm_compute. discriminate.
  - vm_compute. Instances.no_nul.
Qed.

Lemma sent_ls_command_ok : command_ok (sent "ls").
Proof.
  split.
  - vm_compute. split; discriminate.
  - vm_compute. discriminate.
  - vm_compute. apply not_elem_of_nil.
Qed.


Lemma X3_witness :
  let r := ul_terminal_prepare_current_terminal getmode_fails 256 512 text_console in
  thread_arg r.2 = None /\
  (open_ret getmode_fails < 0 ->
     List.filter is_ioctl r.2 = [] /\ kb_mode r.1.2 = kb_mode text_console /\
     vt_mode r.1.2 = vt_mode text_console) /\
  (0 <= open_ret getmode_fails ->
     current_fd r.1.2 = open_ret getmode_fails /\
     List.filter is_close r.2 =
       if current_fd text_console <? 0 then [] else [EvClose (current_fd text_console)]).
Proof.
  intros r.
  apply (X3_prepare_failure getmode_fails 256 512 text_console r.1.2 r.2).
  vm_compute. reflexivity.
Defined.

Lemma X4_witness :
  let r := ul_terminal_reset_current_terminal reset_fine prepared.1.2 in
  kb_mode r.1 = kb_mode text_console /\ vt_mode r.1 = vt_mode text_console /\
  current_fd r.1 = -1 /\
  r.2 = [EvIoctl (open_ret all_fine) (KDSETMODE (vt_mode text_console));
         EvIoctl (open_ret all_fine) (KDSKBMODE (kb_mode text_console));
         EvClose (open_ret all_fine)].
Proof.
  intros r.
  apply (X4_prepare_then_reset all_fine 256 512 text_console prepared.1.2 prepared.2
           reset_fine r.1 r.2).
  - vm_compute. reflexivity.
  - reflexivity.
  - reflexivity.
  - vm_compute. reflexivity.
Defined.

Lemma X6_witness :
  let again := ul_terminal_prepare_current_terminal all_fine_again 256 512 prepared.1.2 in
  let r := ul_terminal_reset_current_terminal reset_fine again.1.2 in
  List.filter is_close again.2 = [EvClose (open_ret all_fine)] /\
  kb_mode r.1 = K_OFF /\ vt_mode r.1 = KD_GRAPHICS.
Proof.
  intros again r.
  apply (X6_prepare_twice all_fine all_fine_again 256 512 text_console
           prepared.1.2 prepared.2 again.1.2 again.2 reset_fine r.1 r.2).
  - vm_compute. reflexivity.
  - vm_compute. reflexivity.
  - reflexivity.
  - reflexivity.
  - vm_compute. reflexivity.
Defined.


Lemma X8_witness :
  let ws := tty_winsize (mkDimen 1080 2340) in
  ws_col ws = 1080 / 8 /\ ws_row ws = 2340 / 16 /\
  8 * ws_col ws <= 1080 < 8 * ws_col ws + 8 /\
  16 * ws_row ws <= 2340 < 16 * ws_row ws + 16 /\
  ws_xpixel ws = 0 /\ ws_ypixel ws = 0.
Proof.
  apply (X8_winsize_in_range 1080 2340); vm_compute; (split; [discriminate | reflexivity]).
Defined.

Lemma X10_witness :
  exists s' t, iteration strip (incoming "lsabc") (sent "ls") = Some (s', t).
Proof.
  apply (X10_iteration_in_bounds strip (incoming "lsabc") (sent "ls") (of_string "lsabc")).
  - exact StripperFacts.remove_escape_codes_length.
  - exact StripperFacts.remove_escape_codes_terminated.
  - exact Instances.sent_ls_ok.
  - exact sent_ls_command_ok.
  - reflexivity.
  - vm_compute. lia.
  - vm_compute. reflexivity.
Defined.

Lemma X11_witness :
  echo_window_ok (outcome (iteration strip writable_only (staged "ls"))).1.
Proof.
  apply (X11_echo_window_invariant strip writable_only (staged "ls")
           (outcome (iteration strip writable_only (staged "ls"))).1
           (outcome (iteration strip writable_only (staged "ls"))).2).
  - exact StripperFacts.remove_escape_codes_length.
  - exact staged_ls_ok.
  - exact staged_ls_command_ok.
  - vm_compute. reflexivity.
Defined.

Lemma X12_witness :
  let s := staged "ls" in
  let after := outcome (iteration strip writable_only s) in
  List.filter is_write after.2 = [EvWrite (tty_fd s) (command_buffer s)] /\
  command_buffer after.1 = replicate (length (command_buffer s)) NUL /\
  command_ready_to_send after.1 = false /\
  command_buffer_length after.1 = 0 /\ command_buffer_pos after.1 = 0 /\
  entered_command after.1 =
    Some (take (Z.to_nat (command_buffer_length s)) (command_buffer s)) /\
  forall k2 s2 t2,
    iteration strip k2 after.1 = Some (s2, t2) ->
    List.filter is_write t2 = [].
Proof.
  intros s after.
  apply (X12_send_once strip writable_only s after.1 after.2).
  - vm_compute. reflexivity.
  - vm_compute. discriminate.
Defined.

Lemma X13_witness :
  exists s',
    read_cycle strip (ReadOk (of_string "ls" ++ [x0d; x0a])) (sent "ls") =
      Some (s', [EvRead (tty_fd (sent "ls")) (BUFFER_SIZE (sent "ls"))]) /\
    term_needs_update s' = false /\
    entered_command s' = None /\ cut_terminal s' = None.
Proof.
  apply (X13_bare_echo_suppressed strip (sent "ls") (of_string "ls") [x0d; x0a]).
  - exact StripperFacts.remove_escape_codes_terminated.
  - exact StripperFacts.remove_escape_codes_length.
  - exact StripperMore.remove_escape_codes_shorter.
  - exact Instances.sent_ls_ok.
  - vm_compute. reflexivity.
  - reflexivity.
  - reflexivity.
  - discriminate.
  - simpl. lia.
  - vm_compute. lia.
Defined.

Lemma X14_witness :
  exists s',
    read_cycle strip (ReadOk (of_string "l")) (sent "ls") =
      Some (s', [EvRead (tty_fd (sent "ls")) (BUFFER_SIZE (sent "ls"))]) /\
    take (length (of_string "l")) (terminal_buffer s') = of_string "l" /\
    term_needs_update s' = true /\
    entered_command s' = None /\
    forall cut, genuine (entered_command s') cut = true.
Proof.
  apply (X14_short_read_is_genuine strip (sent "ls") (of_string "ls") (of_string "l")).
  - exact Instances.sent_ls_ok.
  - reflexivity.
  - vm_compute. lia.
  - vm_compute. lia.
Defined.

Lemma X15_witness :
  exists s',
    read_cycle strip (ReadOk coloured) idle =
      Some (s', [EvRead (tty_fd idle) (BUFFER_SIZE idle)]) /\
    read_cycle (fun b => b) (ReadOk coloured) idle =
      Some (s', [EvRead (tty_fd idle) (BUFFER_SIZE idle)]) /\
    displayed_text s' = cstring coloured /\
    (NUL ∉ coloured -> displayed_text s' = coloured) /\
    term_needs_update s' = true.
Proof.
  apply (X15_genuine_output_raw strip (fun b => b) idle coloured).
  - exact idle_ok.
  - exact I.
  - vm_compute. lia.
Defined.

Lemma X16_witness :
  let after := outcome (run strip [incoming "more"; incoming "and more"] published) in
  terminal_buffer after.1 = terminal_buffer published /\
  term_needs_update after.1 = true /\
  List.filter is_read after.2 = [].
Proof.
  intros after.
  apply (X16_no_overwrite strip [incoming "more"; incoming "and more"] published
           after.1 after.2).
  - reflexivity.
  - vm_compute. reflexivity.
Defined.


Lemma X18_witness :
  let s := set_sig_int_sent true idle in
  let after := outcome (iteration strip (incoming "hi") s) in
  List.filter is_kill after.2 =
    (if sig_int_sent s
     then map (fun child => EvKill child SIGINT) (default [] (pgrep (incoming "hi"))) ++
          [EvKill (pid s) SIGINT]
     else []) /\
  List.filter is_popen after.2 =
    (if sig_int_sent s
     then [EvPopen (of_string "pgrep -P " ++ sprintf_d (pid s))]
     else []).
Proof.
  intros s after.
  apply (X18_signals_on_request strip (incoming "hi") s after.1 after.2).
  vm_compute. reflexivity.
Defined.

Lemma X19_witness :
  let after := outcome (iteration strip (incoming "hi") after_failed_fork) in
  pid after_failed_fork = -1 /\
  List.filter is_popen after.2 = [EvPopen (of_string "pgrep -P -1")] /\
  List.filter is_kill after.2 =
    map (fun child => EvKill child SIGINT) (default [] (pgrep (incoming "hi"))) ++
    [EvKill (-1) SIGINT].
Proof.
  intros after.
  apply (X19_interrupt_after_fork_failure strip (mkDimen 256 512)
           (set_sig_int_sent true idle) (tty_winsize (mkDimen 256 512))
           after_failed_fork (incoming "hi") after.1 after.2).
  - reflexivity.
  - reflexivity.
  - vm_compute. reflexivity.
Defined.


Lemma X21_witness :
  read_cycle strip (ReadOk (of_string "hi")) too_long_sent = None.
Proof.
  apply (X21_long_command_breaks_reads strip (ReadOk (of_string "hi")) too_long_sent).
  vm_compute. reflexivity.
Defined.

Lemma X22_witness :
  ul_terminal_reset_current_terminal mode_reset_fails prepared.1.2 =
    (mkConsole (-1) (original_mode prepared.1.2) (original_kb_mode prepared.1.2)
       (original_kb_mode prepared.1.2) (vt_mode prepared.1.2),
     [EvIoctl (current_fd prepared.1.2) (KDSETMODE (original_mode prepared.1.2));
      EvLog "Could not reset terminal mode";
      EvIoctl (current_fd prepared.1.2) (KDSKBMODE (original_kb_mode prepared.1.2));
      EvClose (current_fd prepared.1.2)]).
Proof.
  apply (X22_reset_goes_on mode_reset_fails prepared.1.2).
  - vm_compute. discriminate.
  - vm_compute. discriminate.
  - reflexivity.
Defined.

End MoreInstances.
